(** * Disaster-risk simulation API: scoring engine and request handlers

    A shallow embedding of [src/main.py] and the properties of its
    specification.

    Modelling conventions.
    - Python floats are modelled as exact rationals [Q]; float comparison
      ([==], [<], [>]) is comparison of values, hence [Qeq_bool], [Qltb].
      Not-a-number, infinities and rounding error of binary64 arithmetic are
      outside the model.
    - Python values that arrive in a JSON body are the inductive [pyval];
      a [dict] is a [gmap string pyval].  A [str] is held as the bytes of
      its UTF-8 encoding, so a [str] of ASCII characters is held as it is
      written.
    - [str.lower] and [float] of a [str] are builtins of the interpreter.
      On a [str] of ASCII characters [str.lower] shifts the letters [A]..[Z];
      on every other [str] it follows the Unicode tables of the interpreter,
      which are a parameter ([unicode_lower]), as is the float syntax
      ([float_of_str]).
    - Exceptions are values of [exn]; a computation that may raise returns an
      [outcome].  Code that talks to the database runs in the monad [M],
      which threads the [world] (tables and the trace of database calls).
    - An f-string is kept as the list of its fragments ([text]), the
      formatting of a value inside it is left symbolic ([Fmt]). *)

From Stdlib Require Import ZArith QArith Qround Lia Lqa Ascii String.
From stdpp Require Import base option list sorting gmap strings.

Open Scope Q_scope.

(** ** Floats as rationals *)

(** [x < y] on floats. *)
Definition Qltb (x y : Q) : bool := negb (Qle_bool y x).

(** [min(a, b)]: the first argument unless the second is smaller. *)
Definition py_min (a b : Q) : Q := if Qltb b a then b else a.

(** Rounding to the nearest integer, ties to the even one. *)
Definition round_half_even (x : Q) : Z :=
  let f := Qfloor x in
  match Qcompare (x - inject_Z f) (1 # 2) with
  | Lt => f
  | Gt => (f + 1)%Z
  | Eq => if Z.even f then f else (f + 1)%Z
  end.

(** [round(x, ndigits)] for a non-negative [ndigits]. *)
Definition py_round (x : Q) (ndigits : nat) : Q :=
  let p := Z.to_pos (10 ^ Z.of_nat ndigits) in
  round_half_even (x * inject_Z (Z.pos p)) # p.

(** ** Strings *)

(** Lowercasing of a [str] of ASCII characters: the letters [A]..[Z] are
    shifted, every other character is kept. *)
Definition lower_char (c : ascii) : ascii :=
  let n := N_of_ascii c in
  if ((65 <=? n) && (n <=? 90))%N then ascii_of_N (n + 32) else c.

Fixpoint ascii_lower (s : string) : string :=
  match s with
  | EmptyString => EmptyString
  | String c s' => String (lower_char c) (ascii_lower s')
  end.

Fixpoint is_ascii (s : string) : bool :=
  match s with
  | EmptyString => true
  | String c s' => (N_of_ascii c <? 128)%N && is_ascii s'
  end.

(** ** Values, exceptions *)

#[warnings="-register-all"]
Inductive pyval :=
  | PNone
  | PBool (b : bool)
  | PInt (n : Z)
  | PFloat (x : Q)
  | PStr (s : string)
  | PList (l : list pyval)
  | PDict (d : gmap string pyval).

Definition type_name (v : pyval) : string :=
  match v with
  | PNone => "NoneType"
  | PBool _ => "bool"
  | PInt _ => "int"
  | PFloat _ => "float"
  | PStr _ => "str"
  | PList _ => "list"
  | PDict _ => "dict"
  end.

Inductive exn :=
  | AttributeError (type attr : string)   (* 'type' object has no attribute 'attr' *)
  | TypeError (operation type : string)
  | ValueError (literal : string)         (* could not convert string to float *)
  | KeyError (key : string)
  | OverflowError                         (* int too large to convert to float *)
  | BadRequest                            (* the body is not JSON *)
  | DatabaseError.                        (* any error of the connector *)

Inductive outcome (A : Type) :=
  | Ret (a : A)
  | Raise (e : exn).
Arguments Ret {A} a.
Arguments Raise {A} e.

#[global] Instance outcome_ret : MRet outcome := @Ret.

#[global] Instance outcome_bind : MBind outcome := fun A B k m =>
  match m with
  | Ret a => k a
  | Raise e => Raise e
  end.

(** From here on the Unicode part of [str.lower] is a parameter: what
    [str.lower] returns for a [str] that has a character outside ASCII. *)
Section StrLower.

Variable unicode_lower : string -> string.

(** [s.lower()] *)
Definition lower (s : string) : string :=
  if is_ascii s then ascii_lower s else unicode_lower s.

(** [v.lower()] *)
Definition py_lower (v : pyval) : outcome string :=
  match v with
  | PStr s => Ret (lower s)
  | _ => Raise (AttributeError (type_name v) "lower")
  end.

(** [v.get(key, default)] *)
Definition py_get (v : pyval) (key : string) (default : pyval) : outcome pyval :=
  match v with
  | PDict d => Ret (from_option id default (d !! key))
  | _ => Raise (AttributeError (type_name v) "get")
  end.

(** [v[key]] for a string [key] *)
Definition py_getitem (v : pyval) (key : string) : outcome pyval :=
  match v with
  | PDict d =>
      match d !! key with
      | Some x => Ret x
      | None => Raise (KeyError key)
      end
  | PStr _ | PList _ => Raise (TypeError "indices" (type_name v))
  | _ => Raise (TypeError "subscript" (type_name v))
  end.

(** [d.get(key, default)] for a dict of floats *)
Definition dict_get (d : gmap string Q) (key : string) (default : Q) : Q :=
  from_option id default (d !! key).

(** ** f-strings *)

Inductive frag :=
  | Lit (s : string)
  | Fmt (v : pyval).      (* {v}: the value formatted by [str] *)

Definition text := list frag.

(** [sep.join(parts)] *)
Fixpoint join (sep : string) (parts : list text) : text :=
  match parts with
  | [] => []
  | [p] => p
  | p :: ps => p ++ Lit sep :: join sep ps
  end.

(** ** The scoring engine *)

Record RiskResult := {
  skor_risiko : Q;
  kategori_risiko : string;
  penjelasan : text
}.

Definition normalize_value (value min_val max_val : Q) : Q :=
  if Qeq_bool max_val min_val then 0.5
  else (value - min_val) / (max_val - min_val).

Definition calculate_earthquake_risk (magnitude depth distance : Q) : RiskResult :=
  let norm_magnitude := normalize_value magnitude 1.0 10.0 in
  let norm_depth := normalize_value depth 0 700 in
  let norm_distance := normalize_value distance 0 1000 in
  let w_magnitude := 0.5 in
  let w_depth := 0.3 in
  let w_distance := 0.2 in
  let risk_score :=
    w_magnitude * norm_magnitude +
    w_depth * (1 - norm_depth) +
    w_distance * (1 - norm_distance) in
  let risk_percentage := py_min (risk_score * 100) 100 in
  let category :=
    if Qltb risk_percentage 40 then "Rendah"
    else if Qltb risk_percentage 70 then "Sedang"
    else "Tinggi" in
  let part_magnitude :=
    if Qltb 0.7 norm_magnitude then
      [Lit "Magnitudo "; Fmt (PFloat magnitude); Lit " SR tergolong tinggi"]
    else if Qltb 0.4 norm_magnitude then
      [Lit "Magnitudo "; Fmt (PFloat magnitude); Lit " SR sedang"]
    else
      [Lit "Magnitudo "; Fmt (PFloat magnitude); Lit " SR rendah"] in
  let part_depth :=
    if Qltb norm_depth 0.3 then [Lit "kedalaman gempa dangkal"]
    else if Qltb norm_depth 0.7 then [Lit "kedalaman gempa sedang"]
    else [Lit "kedalaman gempa dalam"] in
  let part_distance :=
    if Qltb norm_distance 0.3 then [Lit "jarak dari pusat gempa dekat"]
    else if Qltb norm_distance 0.7 then [Lit "jarak dari pusat gempa sedang"]
    else [Lit "jarak dari pusat gempa jauh"] in
  let explanation_parts := [part_magnitude; part_depth; part_distance] in
  let explanation :=
    Lit "Berdasarkan parameter: " :: join ", " explanation_parts ++ [Lit "."] in
  {| skor_risiko := py_round risk_percentage 2;
     kategori_risiko := category;
     penjelasan := explanation |}.

Definition drainage_scores : gmap string Q :=
  {[ "baik" := 0.2; "sedang" := 0.5; "buruk" := 0.8 ]}.

(** Lines 127-128: the drainage label is lowercased and looked up. *)
Definition drainage_score (drainage_condition : pyval) : outcome Q :=
  key ← py_lower drainage_condition;
  Ret (dict_get drainage_scores key 0.5).

Definition calculate_flood_risk (rainfall altitude : Q) (drainage_condition : pyval)
  : outcome RiskResult :=
  let norm_rainfall := normalize_value rainfall 0 500 in
  let norm_altitude := normalize_value altitude 0 3000 in
  drainage_score ← drainage_score drainage_condition;
  let w_rainfall := 0.4 in
  let w_altitude := 0.3 in
  let w_drainage := 0.3 in
  let risk_score :=
    w_rainfall * norm_rainfall +
    w_altitude * (1 - norm_altitude) +
    w_drainage * drainage_score in
  let risk_percentage := py_min (risk_score * 100) 100 in
  let category :=
    if Qltb risk_percentage 40 then "Rendah"
    else if Qltb risk_percentage 70 then "Sedang"
    else "Tinggi" in
  let part_rainfall :=
    if Qltb 0.7 norm_rainfall then
      [Lit "curah hujan "; Fmt (PFloat rainfall); Lit " mm/jam sangat tinggi"]
    else if Qltb 0.4 norm_rainfall then
      [Lit "curah hujan "; Fmt (PFloat rainfall); Lit " mm/jam tinggi"]
    else
      [Lit "curah hujan "; Fmt (PFloat rainfall); Lit " mm/jam normal"] in
  let part_altitude :=
    if Qltb 0.7 norm_altitude then [Lit "ketinggian wilayah cukup tinggi"]
    else if Qltb 0.4 norm_altitude then [Lit "ketinggian wilayah sedang"]
    else [Lit "ketinggian wilayah rendah"] in
  let part_drainage := [Lit "kondisi drainase "; Fmt drainage_condition] in
  let explanation_parts := [part_rainfall; part_altitude; part_drainage] in
  let explanation :=
    Lit "Berdasarkan parameter: " :: join ", " explanation_parts ++ [Lit "."] in
  Ret {| skor_risiko := py_round risk_percentage 2;
         kategori_risiko := category;
         penjelasan := explanation |}.

Definition material_scores : gmap string Q :=
  {[ "sulit" := 0.2; "sedang" := 0.5; "mudah" := 0.8 ]}.

(** Lines 196-197: the material label is lowercased and looked up. *)
Definition material_score (material_type : pyval) : outcome Q :=
  key ← py_lower material_type;
  Ret (dict_get material_scores key 0.5).

Definition calculate_fire_risk (area : Q) (material_type : pyval) (wind_speed : Q)
  : outcome RiskResult :=
  let norm_area := normalize_value area 0 10000 in
  let norm_wind := normalize_value wind_speed 0 100 in
  material_score ← material_score material_type;
  let w_area := 0.4 in
  let w_material := 0.3 in
  let w_wind := 0.3 in
  let risk_score :=
    w_area * norm_area +
    w_material * material_score +
    w_wind * norm_wind in
  let risk_percentage := py_min (risk_score * 100) 100 in
  let category :=
    if Qltb risk_percentage 40 then "Rendah"
    else if Qltb risk_percentage 70 then "Sedang"
    else "Tinggi" in
  let part_area :=
    if Qltb 0.7 norm_area then
      [Lit "luas area "; Fmt (PFloat area); Lit " m² sangat luas"]
    else if Qltb 0.4 norm_area then
      [Lit "luas area "; Fmt (PFloat area); Lit " m² cukup luas"]
    else
      [Lit "luas area "; Fmt (PFloat area); Lit " m² terbatas"] in
  let part_material := [Lit "material "; Fmt material_type; Lit " terbakar"] in
  let part_wind :=
    if Qltb 0.7 norm_wind then
      [Lit "kecepatan angin "; Fmt (PFloat wind_speed); Lit " km/jam tinggi"]
    else if Qltb 0.4 norm_wind then
      [Lit "kecepatan angin "; Fmt (PFloat wind_speed); Lit " km/jam sedang"]
    else
      [Lit "kecepatan angin "; Fmt (PFloat wind_speed); Lit " km/jam rendah"] in
  let explanation_parts := [part_area; part_material; part_wind] in
  let explanation :=
    Lit "Berdasarkan parameter: " :: join ", " explanation_parts ++ [Lit "."] in
  Ret {| skor_risiko := py_round risk_percentage 2;
         kategori_risiko := category;
         penjelasan := explanation |}.

(** ** The history store

    The MySQL server is outside the program.  Its tables are part of the
    [world]; whether it accepts a connection, a statement or a commit during
    the request at hand is given by the [environment], as is the clock. *)

Inductive table := simulasi_gempa | simulasi_banjir | simulasi_kebakaran.

#[global] Instance table_eq_dec : EqDecision table.
Proof. solve_decision. Defined.

(** One [INSERT]: the three inputs as they stand in the request body, the
    score, the category and the timestamp. *)
Record row := {
  row_inputs : pyval * pyval * pyval;
  row_skor_risiko : Q;
  row_kategori_risiko : string;
  row_timestamp : Z
}.

Inductive db_call :=
  | Connect
  | Execute (t : table)
  | Commit
  | Close.

Record world := {
  committed : table -> list row;       (* the rows of each table *)
  pending : list (table * row);        (* written, not yet committed *)
  calls : list db_call                 (* calls to the connector, oldest first *)
}.

Record environment := {
  connect_ok : bool;      (* [mysql.connector.connect] succeeds *)
  execute_ok : bool;      (* [cursor.execute] succeeds *)
  commit_ok : bool;       (* [conn.commit] succeeds *)
  now : Z                 (* [datetime.now()], in seconds *)
}.

(** State and exceptions. *)
Record M (A : Type) : Type := Run { run : world -> outcome A * world }.
#[global] Arguments Run {A} _.
#[global] Arguments run {A} _ _.

#[global] Instance M_ret : MRet M := fun A a => Run (fun w => (Ret a, w)).

#[global] Instance M_bind : MBind M := fun A B k m =>
  Run (fun w =>
    match run m w with
    | (Ret a, w') => run (k a) w'
    | (Raise e, w') => (Raise e, w')
    end).

#[global] Instance M_fmap : FMap M := fun A B f m =>
  Run (fun w =>
    match run m w with
    | (Ret a, w') => (Ret (f a), w')
    | (Raise e, w') => (Raise e, w')
    end).

Definition lift {A} (o : outcome A) : M A := Run (fun w => (o, w)).

Definition raise {A} (e : exn) : M A := Run (fun w => (Raise e, w)).

(** [try: body except: handler] *)
Definition try_except {A} (body : M A) (handler : exn -> M A) : M A :=
  Run (fun w =>
    match run body w with
    | (Ret a, w') => (Ret a, w')
    | (Raise e, w') => run (handler e) w'
    end).

Definition modify (f : world -> world) : M unit := Run (fun w => (Ret tt, f w)).

Definition log (c : db_call) : M unit :=
  modify (fun w =>
    {| committed := committed w; pending := pending w; calls := calls w ++ [c] |}).

Definition add_rows (new : list (table * row)) (tables : table -> list row)
  : table -> list row :=
  fun t => tables t ++ map snd (filter (fun tr => tr.1 = t) new).

(** The connector.  A connection is a handle; the cursor is not modelled
    apart from it, and closing does not raise. *)
Inductive connection := Conn.

Definition mysql_connect (env : environment) : M connection :=
  _ ← log Connect;
  if connect_ok env then mret Conn else raise DatabaseError.

Definition execute_insert (env : environment) (t : table) (values : row) : M unit :=
  _ ← log (Execute t);
  if execute_ok env then
    modify (fun w =>
      {| committed := committed w;
         pending := pending w ++ [(t, values)];
         calls := calls w |})
  else raise DatabaseError.

Definition conn_commit (env : environment) : M unit :=
  _ ← log Commit;
  if commit_ok env then
    modify (fun w =>
      {| committed := add_rows (pending w) (committed w);
         pending := [];
         calls := calls w |})
  else raise DatabaseError.

Definition conn_close : M unit :=
  _ ← log Close;
  modify (fun w =>
    {| committed := committed w; pending := []; calls := calls w |}).

(** [SELECT * FROM t ORDER BY timestamp DESC LIMIT 10] and [fetchall]. *)
Definition newer (a b : row) : Prop := (row_timestamp b <= row_timestamp a)%Z.

#[global] Instance newer_dec : RelDecision newer.
Proof. intros a b; unfold newer; apply _. Defined.

Definition execute_select (env : environment) (t : table) : M (list row) :=
  _ ← log (Execute t);
  if execute_ok env then
    Run (fun w => (Ret (take 10 (merge_sort newer (committed w t))), w))
  else raise DatabaseError.

Definition get_db_connection (env : environment) : M (option connection) :=
  try_except
    (conn ← mysql_connect env; mret (Some conn))
    (fun err =>
       match err with
       | DatabaseError => mret None
       | _ => raise err
       end).

Definition save_simulation_result (env : environment)
    (disaster_type : string) (parameters : pyval) (result : RiskResult) : M bool :=
  conn ← get_db_connection env;
  match conn with
  | None => mret false
  | Some _ =>
      try_except
        (let timestamp := now env in
         let values_of (k1 k2 k3 : string) : outcome row :=
           v1 ← py_getitem parameters k1;
           v2 ← py_getitem parameters k2;
           v3 ← py_getitem parameters k3;
           mret {| row_inputs := (v1, v2, v3);
                   row_skor_risiko := skor_risiko result;
                   row_kategori_risiko := kategori_risiko result;
                   row_timestamp := timestamp |} in
         '(sql, values) ←
           (if String.eqb disaster_type "gempa" then
              values ← lift (values_of "magnitude" "depth" "distance");
              mret (simulasi_gempa, values)
            else if String.eqb disaster_type "banjir" then
              values ← lift (values_of "rainfall" "altitude" "drainageCondition");
              mret (simulasi_banjir, values)
            else
              values ← lift (values_of "area" "materialType" "windSpeed");
              mret (simulasi_kebakaran, values));
         _ ← execute_insert env sql values;
         _ ← conn_commit env;
         _ ← conn_close;
         mret true)
        (fun e =>
           _ ← conn_close;
           mret false)
  end.

(** ** The request handlers *)

Inductive message :=
  | Message (s : string)
  | ErrorMessage (e : exn).       (* f"Error: {str(e)}" *)

Inductive payload :=
  | ResultData (r : RiskResult)
  | HistoryData (l : list row).

Inductive json_body :=
  | Success (data : payload)      (* {"success": True, "data": data} *)
  | Failure (m : message).        (* {"success": False, "message": m} *)

Record response := {
  body : json_body;
  status : Z
}.

Section Handlers.

(** [float(s)] for a string [s] is a builtin of the interpreter: [None]
    where it raises [ValueError]. *)
Variable float_of_str : string -> option Q.

(** [float(v)].  An [int] converts when it rounds to a finite binary64
    number, that is below [2^1024 - 2^970] in absolute value. *)
Definition py_float (v : pyval) : outcome Q :=
  match v with
  | PFloat x => Ret x
  | PInt n =>
      if (Z.abs n <? 2 ^ 1024 - 2 ^ 970)%Z then Ret (inject_Z n)
      else Raise OverflowError
  | PBool b => Ret (if b then 1 else 0)
  | PStr s =>
      match float_of_str s with
      | Some x => Ret x
      | None => Raise (ValueError s)
      end
  | _ => Raise (TypeError "float" (type_name v))
  end.

(** Lines 321-346 of [calculate_risk]: the inputs are read from the body
    and scored; [None] stands for the last branch, which answers at once. *)
Definition score_request (disaster_type : string) (data : pyval)
  : outcome (option RiskResult) :=
  if String.eqb disaster_type "gempa" then
    magnitude ← py_get data "magnitude" (PFloat 5.0) ≫= py_float;
    depth ← py_get data "depth" (PFloat 10.0) ≫= py_float;
    distance ← py_get data "distance" (PFloat 50.0) ≫= py_float;
    let result := calculate_earthquake_risk magnitude depth distance in
    mret (Some result)
  else if String.eqb disaster_type "banjir" then
    rainfall ← py_get data "rainfall" (PFloat 50.0) ≫= py_float;
    altitude ← py_get data "altitude" (PFloat 50.0) ≫= py_float;
    drainage_condition ← py_get data "drainageCondition" (PStr "sedang");
    result ← calculate_flood_risk rainfall altitude drainage_condition;
    mret (Some result)
  else if String.eqb disaster_type "kebakaran" then
    area ← py_get data "area" (PFloat 100.0) ≫= py_float;
    material_type ← py_get data "materialType" (PStr "sedang");
    wind_speed ← py_get data "windSpeed" (PFloat 10.0) ≫= py_float;
    result ← calculate_fire_risk area material_type wind_speed;
    mret (Some result)
  else
    mret None.

(** [request_json] is what [request.get_json()] gives: the parsed body,
    or the exception it raises. *)
Definition calculate_risk (env : environment) (disaster_type : string)
    (request_json : outcome pyval) : M response :=
  try_except
    (data ← lift request_json;
     scored ← lift (score_request disaster_type data);
     match scored with
     | None =>
         mret {| body := Failure (Message "Jenis bencana tidak valid");
                 status := 400 |}
     | Some result =>
         _ ← save_simulation_result env disaster_type data result;
         mret {| body := Success (ResultData result); status := 200 |}
     end)
    (fun e => mret {| body := Failure (ErrorMessage e); status := 500 |}).

End Handlers.

Definition get_history (env : environment) (disaster_type : string) : M response :=
  conn ← get_db_connection env;
  match conn with
  | None =>
      mret {| body := Failure (Message "Database connection failed");
              status := 500 |}
  | Some _ =>
      try_except
        (selected ←
           (if String.eqb disaster_type "gempa" then
              Some <$> execute_select env simulasi_gempa
            else if String.eqb disaster_type "banjir" then
              Some <$> execute_select env simulasi_banjir
            else if String.eqb disaster_type "kebakaran" then
              Some <$> execute_select env simulasi_kebakaran
            else mret None);
         match selected with
         | None =>
             mret {| body := Failure (Message "Jenis bencana tidak valid");
                     status := 400 |}
         | Some history =>
             _ ← conn_close;
             mret {| body := Success (HistoryData history); status := 200 |}
         end)
        (fun e => mret {| body := Failure (ErrorMessage e); status := 500 |})
  end.

(** ** Vocabulary of the statements *)

(** The inputs of the three models, the labels being strings. *)
Inductive scenario_input :=
  | Seismic (magnitude depth distance : Q)
  | Flood (rainfall altitude : Q) (drainage_condition : string)
  | Fire (area : Q) (material_type : string) (wind_speed : Q).

Definition risk_of (i : scenario_input) : outcome RiskResult :=
  match i with
  | Seismic magnitude depth distance =>
      Ret (calculate_earthquake_risk magnitude depth distance)
  | Flood rainfall altitude drainage_condition =>
      calculate_flood_risk rainfall altitude (PStr drainage_condition)
  | Fire area material_type wind_speed =>
      calculate_fire_risk area (PStr material_type) wind_speed
  end.

(** The expected ranges of the numeric inputs, as the data model of the
    specification lists them. *)
Definition in_expected_range (i : scenario_input) : Prop :=
  match i with
  | Seismic magnitude depth distance =>
      (1 <= magnitude /\ magnitude <= 10) /\
      (0 <= depth /\ depth <= 700) /\
      (0 <= distance /\ distance <= 1000)
  | Flood rainfall altitude _ =>
      (0 <= rainfall /\ rainfall <= 500) /\
      (0 <= altitude /\ altitude <= 3000)
  | Fire area _ wind_speed =>
      (0 <= area /\ area <= 10000) /\
      (0 <= wind_speed /\ wind_speed <= 100)
  end.

(** The specification's reading of a result: the returned score is in
    [[0, 100]] and the category follows the thresholds 40 and 70 on it. *)
Definition score_in_range_and_bucketed (r : RiskResult) : Prop :=
  (0 <= skor_risiko r /\ skor_risiko r <= 100) /\
  (skor_risiko r < 40 -> kategori_risiko r = "Rendah") /\
  (40 <= skor_risiko r /\ skor_risiko r < 70 -> kategori_risiko r = "Sedang") /\
  (70 <= skor_risiko r -> kategori_risiko r = "Tinggi").

(** What the code does: the category follows the thresholds on the
    percentage [pct] before rounding, the score is [pct] rounded. *)
Definition bucketed_before_rounding (pct : Q) (r : RiskResult) : Prop :=
  skor_risiko r = py_round pct 2 /\
  pct <= 100 /\
  (pct < 40 -> kategori_risiko r = "Rendah") /\
  (40 <= pct /\ pct < 70 -> kategori_risiko r = "Sedang") /\
  (70 <= pct -> kategori_risiko r = "Tinggi").

(** The fields of the body that each scenario reads, with the defaults the
    specification documents for them. *)
Definition documented_defaults (disaster_type : string) : gmap string pyval :=
  if String.eqb disaster_type "gempa" then
    {[ "magnitude" := PFloat 5.0; "depth" := PFloat 10.0; "distance" := PFloat 50.0 ]}
  else if String.eqb disaster_type "banjir" then
    {[ "rainfall" := PFloat 50.0; "altitude" := PFloat 50.0;
       "drainageCondition" := PStr "sedang" ]}
  else if String.eqb disaster_type "kebakaran" then
    {[ "area" := PFloat 100.0; "materialType" := PStr "sedang";
       "windSpeed" := PFloat 10.0 ]}
  else ∅.

Definition input_fields (disaster_type : string) : list string :=
  if String.eqb disaster_type "gempa" then ["magnitude"; "depth"; "distance"]
  else if String.eqb disaster_type "banjir" then
    ["rainfall"; "altitude"; "drainageCondition"]
  else if String.eqb disaster_type "kebakaran" then
    ["area"; "materialType"; "windSpeed"]
  else [].

Definition known_type (disaster_type : string) : Prop :=
  disaster_type = "gempa" \/ disaster_type = "banjir" \/ disaster_type = "kebakaran".

Definition is_str (v : pyval) : bool :=
  match v with
  | PStr _ => true
  | _ => false
  end.

(** The three answers of [calculate_risk]. *)
Definition ok_response (result : RiskResult) : response :=
  {| body := Success (ResultData result); status := 200 |}.

Definition invalid_type_response : response :=
  {| body := Failure (Message "Jenis bencana tidak valid"); status := 400 |}.

Definition error_response (e : exn) : response :=
  {| body := Failure (ErrorMessage e); status := 500 |}.

(** The world after one more call to the connector. *)
Definition after_calls (cs : list db_call) (w : world) : world :=
  {| committed := committed w; pending := pending w; calls := calls w ++ cs |}.

(** The numeric fields of a scenario that has a label, with their defaults. *)
Definition numeric_fields (disaster_type : string) : list (string * Q) :=
  if String.eqb disaster_type "banjir" then
    [("rainfall", 50.0); ("altitude", 50.0)]
  else if String.eqb disaster_type "kebakaran" then
    [("area", 100.0); ("windSpeed", 10.0)]
  else [].

Definition connection_failed_response : response :=
  {| body := Failure (Message "Database connection failed"); status := 500 |}.

(** Sample worlds and environments. *)
Definition empty_world : world :=
  {| committed := fun _ => []; pending := []; calls := [] |}.

Definition store_up : environment :=
  {| connect_ok := true; execute_ok := true; commit_ok := true; now := 0 |}.

Definition store_down : environment :=
  {| connect_ok := false; execute_ok := false; commit_ok := false; now := 0 |}.

Definition no_float_strings : string -> option Q := fun _ => None.

Definition no_unicode : string -> string := fun s => s.

(** A sample of the Unicode part: [str.lower] sends U+212A KELVIN SIGN to
    the letter k. *)
Definition kelvin_lower (s : string) : string :=
  if String.eqb s "BURUK" then "buruk" else s.

(** ** Vocabulary of the further properties *)

(** The category of a percentage, and the percentage of each model: the
    expressions of the source, named. *)
Definition category_of (risk_percentage : Q) : string :=
  if Qltb risk_percentage 40 then "Rendah"
  else if Qltb risk_percentage 70 then "Sedang"
  else "Tinggi".

Definition earthquake_percentage (magnitude depth distance : Q) : Q :=
  py_min ((0.5 * normalize_value magnitude 1.0 10.0 +
           0.3 * (1 - normalize_value depth 0 700) +
           0.2 * (1 - normalize_value distance 0 1000)) * 100) 100.

Definition flood_percentage (rainfall altitude drainage_score : Q) : Q :=
  py_min ((0.4 * normalize_value rainfall 0 500 +
           0.3 * (1 - normalize_value altitude 0 3000) +
           0.3 * drainage_score) * 100) 100.

Definition fire_percentage (area material_score wind_speed : Q) : Q :=
  py_min ((0.4 * normalize_value area 0 10000 +
           0.3 * material_score +
           0.3 * normalize_value wind_speed 0 100) * 100) 100.

(** The order of the categories. *)
Definition category_rank (category : string) : Z :=
  if String.eqb category "Rendah" then 0
  else if String.eqb category "Sedang" then 1
  else 2.

(** [no_less_risky i j]: [j] is the same scenario as [i] with every factor
    moved towards danger or left alone. *)
Definition no_less_risky (i j : scenario_input) : Prop :=
  match i, j with
  | Seismic m1 d1 s1, Seismic m2 d2 s2 => m1 <= m2 /\ d2 <= d1 /\ s2 <= s1
  | Flood r1 a1 l1, Flood r2 a2 l2 =>
      r1 <= r2 /\ a2 <= a1 /\
      exists x1 x2, drainage_score (PStr l1) = Ret x1 /\
                    drainage_score (PStr l2) = Ret x2 /\ x1 <= x2
  | Fire a1 l1 w1, Fire a2 l2 w2 =>
      a1 <= a2 /\ w1 <= w2 /\
      exists x1 x2, material_score (PStr l1) = Ret x1 /\
                    material_score (PStr l2) = Ret x2 /\ x1 <= x2
  | _, _ => False
  end.

(** The phrases of the explanations, by thresholds on the raw inputs. *)
Definition magnitude_phrase (magnitude : Q) : string :=
  if Qltb 7.3 magnitude then " SR tergolong tinggi"
  else if Qltb 4.6 magnitude then " SR sedang"
  else " SR rendah".

Definition depth_phrase (depth : Q) : string :=
  if Qltb depth 210 then "kedalaman gempa dangkal"
  else if Qltb depth 490 then "kedalaman gempa sedang"
  else "kedalaman gempa dalam".

Definition distance_phrase (distance : Q) : string :=
  if Qltb distance 300 then "jarak dari pusat gempa dekat"
  else if Qltb distance 700 then "jarak dari pusat gempa sedang"
  else "jarak dari pusat gempa jauh".

Definition rainfall_phrase (rainfall : Q) : string :=
  if Qltb 350 rainfall then " mm/jam sangat tinggi"
  else if Qltb 200 rainfall then " mm/jam tinggi"
  else " mm/jam normal".

Definition altitude_phrase (altitude : Q) : string :=
  if Qltb 2100 altitude then "ketinggian wilayah cukup tinggi"
  else if Qltb 1200 altitude then "ketinggian wilayah sedang"
  else "ketinggian wilayah rendah".

Definition area_phrase (area : Q) : string :=
  if Qltb 7000 area then " m² sangat luas"
  else if Qltb 4000 area then " m² cukup luas"
  else " m² terbatas".

Definition wind_phrase (wind_speed : Q) : string :=
  if Qltb 70 wind_speed then " km/jam tinggi"
  else if Qltb 40 wind_speed then " km/jam sedang"
  else " km/jam rendah".

(** The table and the fields of an [INSERT], by scenario type as
    [save_simulation_result] branches on it: its last branch takes every
    type that is neither "gempa" nor "banjir". *)
Definition table_of (disaster_type : string) : table :=
  if String.eqb disaster_type "gempa" then simulasi_gempa
  else if String.eqb disaster_type "banjir" then simulasi_banjir
  else simulasi_kebakaran.

Definition stored_fields (disaster_type : string) : list string :=
  if String.eqb disaster_type "gempa" then ["magnitude"; "depth"; "distance"]
  else if String.eqb disaster_type "banjir" then
    ["rainfall"; "altitude"; "drainageCondition"]
  else ["area"; "materialType"; "windSpeed"].

(** The fields that [calculate_risk] passes to [float]. *)
Definition float_fields (disaster_type : string) : list string :=
  if String.eqb disaster_type "gempa" then ["magnitude"; "depth"; "distance"]
  else if String.eqb disaster_type "banjir" then ["rainfall"; "altitude"]
  else if String.eqb disaster_type "kebakaran" then ["area"; "windSpeed"]
  else [].

Definition is_dict (v : pyval) : bool :=
  match v with
  | PDict _ => true
  | _ => false
  end.

(** The percentage of a scenario input, before rounding: line 69, 143
    or 212 of the model concerned. *)
Definition percentage_of (i : scenario_input) : Q :=
  match i with
  | Seismic magnitude depth distance =>
      earthquake_percentage magnitude depth distance
  | Flood rainfall altitude drainage_condition =>
      flood_percentage rainfall altitude
        (dict_get drainage_scores (lower drainage_condition) 0.5)
  | Fire area material_type wind_speed =>
      fire_percentage area
        (dict_get material_scores (lower material_type) 0.5) wind_speed
  end.

(** Reading a field as the specification words it: a field that is in the
    body is taken from the body (a numeric one through [float]), a field
    that is missing is its documented default. *)
Definition numeric_field (float_of_str : string -> option Q)
    (d : gmap string pyval) (key : string) (default : Q) : outcome Q :=
  match d !! key with
  | Some v => py_float float_of_str v
  | None => Ret default
  end.

Definition label_field (d : gmap string pyval) (key default : string) : pyval :=
  match d !! key with
  | Some v => v
  | None => PStr default
  end.

(** A table of twelve rows, not in the order of their timestamps. *)
Definition sample_row (timestamp : Z) : row :=
  {| row_inputs := (PFloat 50, PInt 50, PStr "sedang");
     row_skor_risiko := 48.5;
     row_kategori_risiko := "Sedang";
     row_timestamp := timestamp |}.

Definition twelve_rows : world :=
  {| committed := fun t =>
       match t with
       | simulasi_banjir => map sample_row [5; 1; 12; 7; 3; 9; 2; 11; 4; 8; 6; 10]%Z
       | _ => []
       end;
     pending := [];
     calls := [] |}.

(** * Properties *)

(** ** Comparison, [min] and rounding *)

Lemma Qltb_lt (x y : Q) : Qltb x y = true <-> x < y.
Proof.
  unfold Qltb. rewrite negb_true_iff. split.
  - intros H. apply Qnot_le_lt. intros Hle.
    apply Qle_bool_iff in Hle. congruence.
  - intros H. destruct (Qle_bool y x) eqn:E; [|done].
    apply Qle_bool_iff in E. lra.
Qed.

Lemma Qltb_ge (x y : Q) : Qltb x y = false <-> y <= x.
Proof.
  unfold Qltb. rewrite negb_false_iff. apply Qle_bool_iff.
Qed.

Lemma py_min_le_r (a b : Q) : py_min a b <= b.
Proof.
  unfold py_min. destruct (Qltb b a) eqn:E.
  - lra.
  - apply Qltb_ge in E. exact E.
Qed.

Lemma py_min_ge (a b c : Q) : c <= a -> c <= b -> c <= py_min a b.
Proof. unfold py_min. destruct (Qltb b a); auto. Qed.

Lemma Qfloor_ge (n : Z) (x : Q) : inject_Z n <= x -> (n <= Qfloor x)%Z.
Proof.
  intros H. pose proof (Qlt_floor x) as Hf.
  assert (Hlt : inject_Z n < inject_Z (Qfloor x + 1)) by lra.
  rewrite <- Zlt_Qlt in Hlt. lia.
Qed.

(** Rounding never crosses an integer. *)
Lemma round_half_even_ge (n : Z) (x : Q) :
  inject_Z n <= x -> (n <= round_half_even x)%Z.
Proof.
  intros H. apply Qfloor_ge in H. unfold round_half_even.
  destruct (Qcompare _ _); [destruct (Z.even _)|..]; lia.
Qed.

Lemma round_half_even_le (n : Z) (x : Q) :
  x <= inject_Z n -> (round_half_even x <= n)%Z.
Proof.
  intros H. pose proof (Qfloor_le x) as Hf.
  assert (Hle : inject_Z (Qfloor x) <= inject_Z n) by lra.
  rewrite <- Zle_Qle in Hle.
  destruct (Z.eq_dec (Qfloor x) n) as [Heq|Hne].
  - unfold round_half_even.
    destruct (Qcompare _ _) eqn:E; [| lia |].
    + apply Qeq_alt in E. rewrite Heq in E. lra.
    + apply Qgt_alt in E. rewrite Heq in E. lra.
  - unfold round_half_even.
    destruct (Qcompare _ _); [destruct (Z.even _)|..]; lia.
Qed.

(** The same for [round(x, 2)] and an integer bound [n]. *)
Lemma py_round2_ge (n : Z) (x : Q) : inject_Z n <= x -> inject_Z n <= py_round x 2.
Proof.
  intros H. unfold py_round.
  change (Z.to_pos (10 ^ Z.of_nat 2)) with 100%positive.
  assert (Hr : (n * 100 <= round_half_even (x * inject_Z 100))%Z).
  { apply round_half_even_ge. rewrite inject_Z_mult.
    apply Qmult_le_compat_r; [exact H | discriminate]. }
  unfold Qle; cbn. lia.
Qed.

Lemma py_round2_le (n : Z) (x : Q) : x <= inject_Z n -> py_round x 2 <= inject_Z n.
Proof.
  intros H. unfold py_round.
  change (Z.to_pos (10 ^ Z.of_nat 2)) with 100%positive.
  assert (Hr : (round_half_even (x * inject_Z 100) <= n * 100)%Z).
  { apply round_half_even_le. rewrite inject_Z_mult.
    apply Qmult_le_compat_r; [exact H | discriminate]. }
  unfold Qle; cbn. lia.
Qed.

Lemma py_round2_lt (n : Z) (x : Q) : py_round x 2 < inject_Z n -> x < inject_Z n.
Proof.
  intros H. apply Qnot_le_lt. intros Hle.
  apply py_round2_ge in Hle. lra.
Qed.

Lemma py_round2_gt (n : Z) (x : Q) : inject_Z n < py_round x 2 -> inject_Z n < x.
Proof.
  intros H. apply Qnot_le_lt. intros Hle.
  apply py_round2_le in Hle. lra.
Qed.

(** ** The normalizer *)

(** C4.  [normalize_value] returns [(value - min) / (max - min)] when the
    bounds differ and exactly [0.5] when they are equal; hence the lower
    bound goes to 0 and the upper bound to 1, and a value outside the bounds
    goes outside [[0, 1]]: nothing is clamped. *)
Theorem normalize_value_contract (value min_val max_val : Q) :
  (max_val == min_val -> normalize_value value min_val max_val = 0.5) /\
  (~ max_val == min_val ->
     normalize_value value min_val max_val
     = (value - min_val) / (max_val - min_val)) /\
  (~ min_val == max_val ->
     normalize_value min_val min_val max_val == 0 /\
     normalize_value max_val min_val max_val == 1) /\
  (min_val < max_val -> value < min_val ->
     normalize_value value min_val max_val < 0) /\
  (min_val < max_val -> max_val < value ->
     1 < normalize_value value min_val max_val).
Proof.
  unfold normalize_value. repeat split.
  - intros H. apply Qeq_bool_iff in H. rewrite H. reflexivity.
  - intros H. destruct (Qeq_bool max_val min_val) eqn:E; [|reflexivity].
    apply Qeq_bool_iff in E. contradiction.
  - destruct (Qeq_bool max_val min_val) eqn:E.
    + apply Qeq_bool_iff in E. symmetry in E. contradiction.
    + field. intros Hz. apply H. lra.
  - destruct (Qeq_bool max_val min_val) eqn:E.
    + apply Qeq_bool_iff in E. symmetry in E. contradiction.
    + field. intros Hz. apply H. lra.
  - intros Hlt Hv. destruct (Qeq_bool max_val min_val) eqn:E.
    + apply Qeq_bool_iff in E. lra.
    + apply Qlt_shift_div_r; lra.
  - intros Hlt Hv. destruct (Qeq_bool max_val min_val) eqn:E.
    + apply Qeq_bool_iff in E. lra.
    + apply Qlt_shift_div_l; lra.
Qed.

(** ** The categorical scorer *)

Lemma drainage_scores_lookup (key : string) :
  drainage_scores !! key =
    if decide (key = "baik") then Some 0.2
    else if decide (key = "sedang") then Some 0.5
    else if decide (key = "buruk") then Some 0.8
    else None.
Proof.
  unfold drainage_scores. repeat case_decide; subst; by simplify_map_eq.
Qed.

Lemma material_scores_lookup (key : string) :
  material_scores !! key =
    if decide (key = "sulit") then Some 0.2
    else if decide (key = "sedang") then Some 0.5
    else if decide (key = "mudah") then Some 0.8
    else None.
Proof.
  unfold material_scores. repeat case_decide; subst; by simplify_map_eq.
Qed.

(** C5.  The label is lowercased and looked up: the three keys of each
    mapping give their score, every other label gives [0.5]; labels that
    differ only in case score alike, as "BAIK" and "baik" do. *)
Theorem categorical_scorer_contract (label : string) :
  (lower label = "baik" -> drainage_score (PStr label) = Ret 0.2) /\
  (lower label = "sedang" -> drainage_score (PStr label) = Ret 0.5) /\
  (lower label = "buruk" -> drainage_score (PStr label) = Ret 0.8) /\
  (lower label <> "baik" -> lower label <> "sedang" -> lower label <> "buruk" ->
     drainage_score (PStr label) = Ret 0.5) /\
  (lower label = "sulit" -> material_score (PStr label) = Ret 0.2) /\
  (lower label = "sedang" -> material_score (PStr label) = Ret 0.5) /\
  (lower label = "mudah" -> material_score (PStr label) = Ret 0.8) /\
  (lower label <> "sulit" -> lower label <> "sedang" -> lower label <> "mudah" ->
     material_score (PStr label) = Ret 0.5) /\
  (forall other : string, lower other = lower label ->
     drainage_score (PStr other) = drainage_score (PStr label) /\
     material_score (PStr other) = material_score (PStr label)) /\
  drainage_score (PStr "BAIK") = drainage_score (PStr "baik").
Proof.
  unfold drainage_score, material_score, dict_get; cbn [py_lower mbind outcome_bind].
  rewrite drainage_scores_lookup, material_scores_lookup.
  repeat split; intros;
    try match goal with H : lower _ = lower _ |- _ => rewrite H end;
    rewrite ?drainage_scores_lookup, ?material_scores_lookup;
    repeat case_decide; try congruence; reflexivity.
Qed.

(** ** Worked examples *)

(** C2, as the specification has it: the seismic score of magnitude 7.5,
    depth 50, distance 20 would be 83.56.  It is not. *)
Lemma seismic_example_is_not_83_56 :
  ~ (skor_risiko (calculate_earthquake_risk 7.5 50 20) == 83.56 /\
     kategori_risiko (calculate_earthquake_risk 7.5 50 20) = "Tinggi").
Proof. intros [H _]. vm_compute in H. discriminate. Qed.

(** C2, amended.  The weighted sum is 0.8356825..., so the score of
    magnitude 7.5, depth 50, distance 20 is 83.57, category "Tinggi". *)
Theorem seismic_example :
  skor_risiko (calculate_earthquake_risk 7.5 50 20) == 83.57 /\
  kategori_risiko (calculate_earthquake_risk 7.5 50 20) = "Tinggi".
Proof. split; reflexivity. Qed.

(** C8.  The fire model at area 5000, material "mudah", wind speed 80
    returns the score 68 with category "Sedang". *)
Theorem fire_example :
  exists r, calculate_fire_risk 5000 (PStr "mudah") 80 = Ret r /\
    skor_risiko r == 68 /\ kategori_risiko r = "Sedang".
Proof. eexists. split; [reflexivity|]. split; reflexivity. Qed.

(** ** Range of the score, category *)

Lemma normalize_value_bounds (value min_val max_val : Q) :
  min_val < max_val ->
  (min_val <= value -> 0 <= normalize_value value min_val max_val) /\
  (value <= max_val -> normalize_value value min_val max_val <= 1).
Proof.
  intros Hlt. unfold normalize_value.
  destruct (Qeq_bool max_val min_val) eqn:E.
  { apply Qeq_bool_iff in E. lra. }
  split; intros H.
  - apply Qle_shift_div_l; lra.
  - apply Qle_shift_div_r; lra.
Qed.

Lemma drainage_score_cases (label : string) :
  exists x, drainage_score (PStr label) = Ret x /\ (x = 0.2 \/ x = 0.5 \/ x = 0.8).
Proof.
  unfold drainage_score, dict_get; cbn [py_lower mbind outcome_bind].
  rewrite drainage_scores_lookup. eexists; split; [reflexivity|].
  repeat case_decide; cbn; auto.
Qed.

Lemma material_score_cases (label : string) :
  exists x, material_score (PStr label) = Ret x /\ (x = 0.2 \/ x = 0.5 \/ x = 0.8).
Proof.
  unfold material_score, dict_get; cbn [py_lower mbind outcome_bind].
  rewrite material_scores_lookup. eexists; split; [reflexivity|].
  repeat case_decide; cbn; auto.
Qed.

(** A result built from a percentage at most 100, as all three models
    build it. *)
Lemma result_of_percentage (pct : Q) (explanation : text) :
  pct <= 100 ->
  let r := {| skor_risiko := py_round pct 2;
              kategori_risiko :=
                if Qltb pct 40 then "Rendah"
                else if Qltb pct 70 then "Sedang"
                else "Tinggi";
              penjelasan := explanation |} in
  bucketed_before_rounding pct r /\
  skor_risiko r <= 100 /\
  (0 <= pct -> 0 <= skor_risiko r) /\
  (skor_risiko r < 40 -> kategori_risiko r = "Rendah") /\
  (40 < skor_risiko r /\ skor_risiko r < 70 -> kategori_risiko r = "Sedang") /\
  (70 < skor_risiko r -> kategori_risiko r = "Tinggi").
Proof.
  intros Hle r. subst r. unfold bucketed_before_rounding. cbn [skor_risiko kategori_risiko].
  assert (H40 : pct < 40 -> (if Qltb pct 40 then "Rendah"
            else if Qltb pct 70 then "Sedang" else "Tinggi") = "Rendah").
  { intros H. apply Qltb_lt in H. rewrite H. reflexivity. }
  assert (H4070 : 40 <= pct /\ pct < 70 -> (if Qltb pct 40 then "Rendah"
            else if Qltb pct 70 then "Sedang" else "Tinggi") = "Sedang").
  { intros [H1 H2]. apply Qltb_ge in H1. apply Qltb_lt in H2.
    rewrite H1, H2. reflexivity. }
  assert (H70 : 70 <= pct -> (if Qltb pct 40 then "Rendah"
            else if Qltb pct 70 then "Sedang" else "Tinggi") = "Tinggi").
  { intros H. assert (H' : 40 <= pct) by lra.
    apply Qltb_ge in H, H'. rewrite H, H'. reflexivity. }
  repeat split; auto.
  - apply (py_round2_le 100). exact Hle.
  - apply (py_round2_ge 0).
  - intros H. apply H40. apply (py_round2_lt 40). exact H.
  - intros [H1 H2]. apply H4070. split.
    + apply Qlt_le_weak. apply (py_round2_gt 40). exact H1.
    + apply (py_round2_lt 70). exact H2.
  - intros H. apply H70. apply Qlt_le_weak. apply (py_round2_gt 70). exact H.
Qed.

(** C1, amended.  Every model returns a result.  Its score is at most 100,
    and at least 0 when the numeric inputs are in their expected ranges.
    The category follows the thresholds 40 and 70 on the percentage of the
    model, [min(risk_score * 100, 100)], before it is rounded, and the score
    is that percentage rounded to two decimals; on the returned score that
    is: below 40 "Rendah", strictly between 40 and 70 "Sedang", above 70
    "Tinggi". *)
Theorem score_bounds_and_category (i : scenario_input) :
  exists r, risk_of i = Ret r /\
    bucketed_before_rounding (percentage_of i) r /\
    skor_risiko r <= 100 /\
    (in_expected_range i -> 0 <= skor_risiko r) /\
    (skor_risiko r < 40 -> kategori_risiko r = "Rendah") /\
    (40 < skor_risiko r /\ skor_risiko r < 70 -> kategori_risiko r = "Sedang") /\
    (70 < skor_risiko r -> kategori_risiko r = "Tinggi").
Proof.
  destruct i as [magnitude depth distance
                |rainfall altitude label
                |area label wind_speed]; cbn [risk_of in_expected_range percentage_of].
  - eexists. split; [reflexivity|].
    unfold calculate_earthquake_risk, earthquake_percentage.
    match goal with |- context [py_round ?p 2] => set (pct := p) end.
    match goal with |- context [Build_RiskResult _ _ ?e] => set (expl := e) end.
    destruct (result_of_percentage pct expl (py_min_le_r _ _))
      as (Hb & Hle & H0 & H1 & H2 & H3).
    split; [exact Hb|]. repeat split; eauto.
    intros ((Hm & _) & (_ & Hd) & (_ & Hs)). apply H0.
    apply py_min_ge; [|lra].
    destruct (normalize_value_bounds magnitude 1.0 10.0) as [Hn1 _]; [reflexivity|].
    destruct (normalize_value_bounds depth 0 700) as [_ Hn2]; [reflexivity|].
    destruct (normalize_value_bounds distance 0 1000) as [_ Hn3]; [reflexivity|].
    specialize (Hn1 ltac:(lra)). specialize (Hn2 Hd). specialize (Hn3 Hs). nra.
  - destruct (drainage_score_cases label) as (x & Hx & Hcases).
    assert (Hx' : dict_get drainage_scores (lower label) 0.5 = x).
    { unfold drainage_score in Hx. cbn [py_lower mbind outcome_bind] in Hx.
      congruence. }
    unfold calculate_flood_risk, flood_percentage. rewrite Hx, Hx'.
    cbn [mbind outcome_bind].
    eexists. split; [reflexivity|].
    match goal with |- context [py_round ?p 2] => set (pct := p) end.
    match goal with |- context [Build_RiskResult _ _ ?e] => set (expl := e) end.
    destruct (result_of_percentage pct expl (py_min_le_r _ _))
      as (Hb & Hle & H0 & H1 & H2 & H3).
    split; [exact Hb|]. repeat split; eauto.
    intros ((Hr & _) & (_ & Ha)). apply H0.
    apply py_min_ge; [|lra].
    destruct (normalize_value_bounds rainfall 0 500) as [Hn1 _]; [reflexivity|].
    destruct (normalize_value_bounds altitude 0 3000) as [_ Hn2]; [reflexivity|].
    specialize (Hn1 Hr). specialize (Hn2 Ha).
    destruct Hcases as [-> | [-> | ->]]; nra.
  - destruct (material_score_cases label) as (x & Hx & Hcases).
    assert (Hx' : dict_get material_scores (lower label) 0.5 = x).
    { unfold material_score in Hx. cbn [py_lower mbind outcome_bind] in Hx.
      congruence. }
    unfold calculate_fire_risk, fire_percentage. rewrite Hx, Hx'.
    cbn [mbind outcome_bind].
    eexists. split; [reflexivity|].
    match goal with |- context [py_round ?p 2] => set (pct := p) end.
    match goal with |- context [Build_RiskResult _ _ ?e] => set (expl := e) end.
    destruct (result_of_percentage pct expl (py_min_le_r _ _))
      as (Hb & Hle & H0 & H1 & H2 & H3).
    split; [exact Hb|]. repeat split; eauto.
    intros ((Ha & _) & (Hw & _)). apply H0.
    apply py_min_ge; [|lra].
    destruct (normalize_value_bounds area 0 10000) as [Hn1 _]; [reflexivity|].
    destruct (normalize_value_bounds wind_speed 0 100) as [Hn2 _]; [reflexivity|].
    specialize (Hn1 Ha). specialize (Hn2 Hw).
    destruct Hcases as [-> | [-> | ->]]; nra.
Qed.

(** ** Persistence *)

Ltac run_step :=
  cbn -[py_getitem py_get py_float String.eqb add_rows score_request
        calculate_flood_risk calculate_fire_risk calculate_earthquake_risk
        merge_sort take].

Ltac eval_eqb :=
  repeat match goal with
         | |- context [String.eqb ?a ?b] =>
             let v := eval vm_compute in (String.eqb a b) in
             change (String.eqb a b) with v
         end.

Ltac unfold_store :=
  unfold save_simulation_result, get_db_connection, mysql_connect,
    execute_insert, execute_select, conn_commit, conn_close, log, modify,
    raise, try_except, lift.

Lemma py_getitem_missing (d : gmap string pyval) (key : string) :
  d !! key = None -> py_getitem (PDict d) key = Raise (KeyError key).
Proof. intros H. unfold py_getitem. rewrite H. reflexivity. Qed.

(** [save_simulation_result] returns, whatever the store does; it returns
    [False] when the store fails, and then no table has changed. *)
Lemma save_simulation_result_returns env disaster_type data result w :
  exists b w',
    run (save_simulation_result env disaster_type data result) w = (Ret b, w') /\
    (b = false -> committed w' = committed w) /\
    (connect_ok env && execute_ok env && commit_ok env = false -> b = false).
Proof.
  unfold_store. run_step.
  destruct (connect_ok env); run_step; [|eauto 6].
  destruct (disaster_type =? "gempa")%string;
    [|destruct (disaster_type =? "banjir")%string]; run_step.
  all: repeat (match goal with
               | |- context [py_getitem ?d ?k] => destruct (py_getitem d k)
               end; run_step); eauto 6.
  all: destruct (execute_ok env); run_step; eauto 6.
  all: destruct (commit_ok env); run_step; eauto 6.
  all: do 2 eexists; split; [reflexivity|]; split; intros; discriminate.
Qed.

(** A body that lacks a field the [INSERT] reads: [KeyError], swallowed. *)
Lemma save_simulation_result_missing env disaster_type d result w key :
  known_type disaster_type ->
  key ∈ input_fields disaster_type ->
  d !! key = None ->
  run (save_simulation_result env disaster_type (PDict d) result) w
  = (Ret false,
     if connect_ok env
     then {| committed := committed w; pending := []; calls := calls w ++ [Connect; Close] |}
     else after_calls [Connect] w).
Proof.
  intros Hk Hin Hnone. unfold save_simulation_result.
  destruct Hk as [-> | [-> | ->]]; cbn in Hin; eval_eqb; cbv iota.
  all: repeat (apply elem_of_cons in Hin as [-> | Hin]);
    [..|by apply elem_of_nil in Hin].
  all: unfold_store; run_step.
  all: destruct (connect_ok env); run_step; [|reflexivity].
  all: rewrite (py_getitem_missing _ _ Hnone).
  all: repeat (match goal with
               | |- context [py_getitem ?d ?k] => destruct (py_getitem d k)
               end; run_step).
  all: rewrite <- ?app_assoc; reflexivity.
Qed.

(** A complete body with the store up: one row is written and committed. *)
Example complete_request_is_persisted :
  let w' := (run (calculate_risk no_float_strings store_up "gempa"
                    (Ret (PDict {[ "magnitude" := PFloat 7.5; "depth" := PInt 50;
                                   "distance" := PInt 20 ]}))) empty_world).2 in
  map row_inputs (committed w' simulasi_gempa) = [(PFloat 7.5, PInt 50, PInt 20)] /\
  calls w' = [Connect; Execute simulasi_gempa; Commit; Close].
Proof. split; vm_compute; reflexivity. Qed.

(** ** The calculate endpoint *)

(** The answer is decided by the scoring step alone. *)
Lemma calculate_risk_run fos env disaster_type data w :
  match score_request fos disaster_type data with
  | Raise e =>
      run (calculate_risk fos env disaster_type (Ret data)) w
      = (Ret (error_response e), w)
  | Ret None =>
      run (calculate_risk fos env disaster_type (Ret data)) w
      = (Ret invalid_type_response, w)
  | Ret (Some result) =>
      exists b w',
        run (save_simulation_result env disaster_type data result) w = (Ret b, w') /\
        run (calculate_risk fos env disaster_type (Ret data)) w
        = (Ret (ok_response result), w')
  end.
Proof.
  unfold calculate_risk, try_except, lift.
  cbn -[score_request save_simulation_result].
  destruct (score_request fos disaster_type data) as [[result|]|e];
    cbn -[score_request save_simulation_result]; try reflexivity.
  destruct (save_simulation_result_returns env disaster_type data result w)
    as (b & w' & Hsave & _).
  exists b, w'. split; [exact Hsave|].
  unfold mbind, M_bind. cbn [run]. rewrite Hsave. reflexivity.
Qed.

Lemma py_get_union (d defaults : gmap string pyval) (key : string) (default : pyval) :
  defaults !! key = Some default ->
  py_get (PDict (d ∪ defaults)) key default = py_get (PDict d) key default.
Proof.
  intros H. unfold py_get. rewrite lookup_union, H.
  destruct (d !! key); reflexivity.
Qed.

Lemma py_get_insert (d : gmap string pyval) (k key : string) (v default : pyval) :
  d !! k = None -> (k = key -> v = default) ->
  py_get (PDict (<[k:=v]> d)) key default = py_get (PDict d) key default.
Proof.
  intros Hnone Hdef. unfold py_get.
  destruct (decide (k = key)) as [->|Hne].
  - rewrite lookup_insert_eq, Hnone, (Hdef eq_refl). reflexivity.
  - rewrite lookup_insert_ne by exact Hne. reflexivity.
Qed.

Lemma py_get_present (d : gmap string pyval) (key : string) (v default : pyval) :
  d !! key = Some v -> py_get (PDict d) key default = Ret v.
Proof. intros H. unfold py_get. rewrite H. reflexivity. Qed.

(** Scoring a body is scoring the body completed with the defaults. *)
Lemma score_request_defaults fos disaster_type (d : gmap string pyval) :
  score_request fos disaster_type (PDict d)
  = score_request fos disaster_type (PDict (d ∪ documented_defaults disaster_type)).
Proof.
  unfold score_request, documented_defaults.
  destruct (disaster_type =? "gempa")%string;
    [|destruct (disaster_type =? "banjir")%string;
      [|destruct (disaster_type =? "kebakaran")%string]];
    rewrite ?py_get_union by reflexivity; reflexivity.
Qed.

(** C6.  When the scoring step of a request succeeds, the answer is
    [{success: true, data: result}] whatever the store does; when the store
    is unreachable or rejects the write, no table changes and the answer is
    the same. *)
Theorem persistence_failure_not_propagated fos env disaster_type data result w :
  score_request fos disaster_type data = Ret (Some result) ->
  exists w',
    run (calculate_risk fos env disaster_type (Ret data)) w
    = (Ret (ok_response result), w') /\
    (connect_ok env && execute_ok env && commit_ok env = false ->
     committed w' = committed w).
Proof.
  intros Hscore.
  pose proof (calculate_risk_run fos env disaster_type data w) as Hrun.
  rewrite Hscore in Hrun. destruct Hrun as (b & w' & Hsave & Hrun).
  exists w'. split; [exact Hrun|].
  destruct (save_simulation_result_returns env disaster_type data result w)
    as (b0 & w0 & Hsave0 & Hunchanged & Hfail).
  rewrite Hsave in Hsave0. injection Hsave0 as -> ->. auto.
Qed.

Lemma read_numeric_field fos (d : gmap string pyval) key default :
  py_get (PDict d) key (PFloat default) ≫= py_float fos
  = numeric_field fos d key default.
Proof. unfold py_get, numeric_field. destruct (d !! key); reflexivity. Qed.

Lemma read_label_field (d : gmap string pyval) key default :
  py_get (PDict d) key (PStr default) = Ret (label_field d key default).
Proof. unfold py_get, label_field. destruct (d !! key); reflexivity. Qed.

(** What each branch of [calculate_risk] reads and scores. *)
Lemma score_request_reads fos (d : gmap string pyval) :
  score_request fos "gempa" (PDict d)
  = (magnitude ← numeric_field fos d "magnitude" 5.0;
     depth ← numeric_field fos d "depth" 10.0;
     distance ← numeric_field fos d "distance" 50.0;
     Ret (Some (calculate_earthquake_risk magnitude depth distance))) /\
  score_request fos "banjir" (PDict d)
  = (rainfall ← numeric_field fos d "rainfall" 50.0;
     altitude ← numeric_field fos d "altitude" 50.0;
     result ← calculate_flood_risk rainfall altitude
                (label_field d "drainageCondition" "sedang");
     Ret (Some result)) /\
  score_request fos "kebakaran" (PDict d)
  = (area ← numeric_field fos d "area" 100.0;
     wind_speed ← numeric_field fos d "windSpeed" 10.0;
     result ← calculate_fire_risk area
                (label_field d "materialType" "sedang") wind_speed;
     Ret (Some result)).
Proof.
  unfold score_request. eval_eqb. cbv iota.
  rewrite !read_numeric_field, !read_label_field.
  repeat split; cbn [mbind outcome_bind]; reflexivity.
Qed.

Lemma score_request_known fos disaster_type (d : gmap string pyval) :
  known_type disaster_type ->
  score_request fos disaster_type (PDict d) <> Ret None.
Proof.
  destruct (score_request_reads fos d) as (Hg & Hb & Hk).
  intros [-> | [-> | ->]]; [rewrite Hg | rewrite Hb | rewrite Hk].
  all: repeat match goal with
              | |- context [numeric_field ?f ?m ?k ?x] =>
                  destruct (numeric_field f m k x)
              | |- context [calculate_flood_risk ?x ?y ?z] =>
                  destruct (calculate_flood_risk x y z)
              | |- context [calculate_fire_risk ?x ?y ?z] =>
                  destruct (calculate_fire_risk x y z)
              | _ => progress cbn [mbind outcome_bind]
              end; discriminate.
Qed.

(** C9.  A field that is in the body is read from the body and a field that
    the body lacks is read as its documented default, before scoring: each
    branch scores the three values so read (the numeric ones through
    [float], which is not applied to a default).  So a body with the
    magnitude alone is scored at that magnitude, depth 10.0 and distance
    50.0, and the empty body at the defaults; scoring a body is scoring the
    body with the defaults put in, for one field and for all of them, and the
    answer is the same. *)
Theorem missing_fields_fall_back_to_defaults fos disaster_type (d : gmap string pyval) :
  (score_request fos "gempa" (PDict d)
   = (magnitude ← numeric_field fos d "magnitude" 5.0;
      depth ← numeric_field fos d "depth" 10.0;
      distance ← numeric_field fos d "distance" 50.0;
      Ret (Some (calculate_earthquake_risk magnitude depth distance)))) /\
  (score_request fos "banjir" (PDict d)
   = (rainfall ← numeric_field fos d "rainfall" 50.0;
      altitude ← numeric_field fos d "altitude" 50.0;
      result ← calculate_flood_risk rainfall altitude
                 (label_field d "drainageCondition" "sedang");
      Ret (Some result))) /\
  (score_request fos "kebakaran" (PDict d)
   = (area ← numeric_field fos d "area" 100.0;
      wind_speed ← numeric_field fos d "windSpeed" 10.0;
      result ← calculate_fire_risk area
                 (label_field d "materialType" "sedang") wind_speed;
      Ret (Some result))) /\
  score_request fos "gempa" (PDict {[ "magnitude" := PFloat 9.9 ]})
  = Ret (Some (calculate_earthquake_risk 9.9 10.0 50.0)) /\
  (forall key default,
     documented_defaults disaster_type !! key = Some default ->
     d !! key = None ->
     score_request fos disaster_type (PDict d)
     = score_request fos disaster_type (PDict (<[key:=default]> d))) /\
  score_request fos disaster_type (PDict d)
  = score_request fos disaster_type (PDict (d ∪ documented_defaults disaster_type)) /\
  (forall env w,
     (run (calculate_risk fos env disaster_type (Ret (PDict d))) w).1
     = (run (calculate_risk fos env disaster_type
               (Ret (PDict (d ∪ documented_defaults disaster_type)))) w).1) /\
  score_request fos "gempa" (PDict ∅)
  = Ret (Some (calculate_earthquake_risk 5.0 10.0 50.0)) /\
  score_request fos "banjir" (PDict ∅)
  = (result ← calculate_flood_risk 50.0 50.0 (PStr "sedang"); Ret (Some result)) /\
  score_request fos "kebakaran" (PDict ∅)
  = (result ← calculate_fire_risk 100.0 (PStr "sedang") 10.0; Ret (Some result)).
Proof.
  destruct (score_request_reads fos d) as (Hg & Hb & Hk).
  split; [exact Hg|]. split; [exact Hb|]. split; [exact Hk|].
  split; [reflexivity|].
  split; [|split; [|split; [|repeat split]]].
  - intros key default Hdef Hnone.
    unfold score_request, documented_defaults in *.
    destruct (disaster_type =? "gempa")%string;
      [|destruct (disaster_type =? "banjir")%string;
        [|destruct (disaster_type =? "kebakaran")%string]];
      [..|reflexivity].
    all: rewrite !(py_get_insert d key _ default _ Hnone) by
        (intros Heq; rewrite Heq in Hdef; revert Hdef; clear;
         vm_compute; congruence).
    all: reflexivity.
  - apply score_request_defaults.
  - intros env w.
    pose proof (calculate_risk_run fos env disaster_type (PDict d) w) as H1.
    pose proof (calculate_risk_run fos env disaster_type
                  (PDict (d ∪ documented_defaults disaster_type)) w) as H2.
    rewrite <- score_request_defaults in H2.
    destruct (score_request fos disaster_type (PDict d)) as [[result|]|e].
    + destruct H1 as (? & ? & _ & ->). destruct H2 as (? & ? & _ & ->). reflexivity.
    + rewrite H1, H2. reflexivity.
    + rewrite H1, H2. reflexivity.
Qed.

(** C7, amended.  A request for a known scenario whose body lacks a field
    never adds a row.  It is scored as the body with the default put in for
    that field is.  When that scoring succeeds the caller gets the score:
    the connection is opened, reading the missing field for the row raises,
    the connection is closed and nothing was executed.  When it raises (a
    field that is present cannot be read) the caller gets the server error
    and the store is not reached.  There is no third case. *)
Theorem missing_field_scored_but_not_persisted
    fos env disaster_type (d : gmap string pyval) key w :
  known_type disaster_type ->
  key ∈ input_fields disaster_type ->
  d !! key = None ->
  score_request fos disaster_type (PDict d)
  = score_request fos disaster_type (PDict (d ∪ documented_defaults disaster_type)) /\
  (forall result,
     score_request fos disaster_type (PDict d) = Ret (Some result) ->
     run (save_simulation_result env disaster_type (PDict d) result) w
     = (Ret false,
        if connect_ok env
        then {| committed := committed w; pending := [];
                calls := calls w ++ [Connect; Close] |}
        else after_calls [Connect] w) /\
     run (calculate_risk fos env disaster_type (Ret (PDict d))) w
     = (Ret (ok_response result),
        if connect_ok env
        then {| committed := committed w; pending := [];
                calls := calls w ++ [Connect; Close] |}
        else after_calls [Connect] w)) /\
  committed (run (calculate_risk fos env disaster_type (Ret (PDict d))) w).2
  = committed w /\
  (forall e,
     score_request fos disaster_type (PDict d) = Raise e ->
     run (calculate_risk fos env disaster_type (Ret (PDict d))) w
     = (Ret (error_response e), w)) /\
  score_request fos disaster_type (PDict d) <> Ret None /\
  (forall default,
     documented_defaults disaster_type !! key = Some default ->
     score_request fos disaster_type (PDict d)
     = score_request fos disaster_type (PDict (<[key:=default]> d))).
Proof.
  intros Hknown Hin Hnone.
  split; [apply score_request_defaults|].
  pose proof (calculate_risk_run fos env disaster_type (PDict d) w) as Hrun.
  pose proof (fun result =>
    save_simulation_result_missing env disaster_type d result w key
      Hknown Hin Hnone) as Hsave.
  pose proof (score_request_known fos disaster_type d Hknown) as Hsome.
  assert (Hins : forall default,
     documented_defaults disaster_type !! key = Some default ->
     score_request fos disaster_type (PDict d)
     = score_request fos disaster_type (PDict (<[key:=default]> d))).
  { intros default Hdef. clear Hrun Hsave Hsome.
    unfold score_request, documented_defaults in *.
    destruct (disaster_type =? "gempa")%string;
      [|destruct (disaster_type =? "banjir")%string;
        [|destruct (disaster_type =? "kebakaran")%string]];
      [..|reflexivity].
    all: rewrite !(py_get_insert d key _ default _ Hnone) by
        (intros Heq; rewrite Heq in Hdef; revert Hdef; clear;
         vm_compute; congruence).
    all: reflexivity. }
  destruct (score_request fos disaster_type (PDict d)) as [[result|]|e].
  - destruct Hrun as (b & w' & Hsave' & Hrun).
    rewrite Hsave in Hsave'. injection Hsave' as <- <-.
    split; [|split; [|split; [discriminate | split; [exact Hsome | exact Hins]]]].
    + intros ? [= <-]. split; [apply Hsave | exact Hrun].
    + rewrite Hrun. destruct (connect_ok env); reflexivity.
  - contradiction.
  - rewrite Hrun.
    split; [discriminate|]. split; [reflexivity|].
    split; [intros ? [= <-]; reflexivity|]. split; [exact Hsome | exact Hins].
Qed.

(** C10.  A flood or fire request whose label is present and is not a
    string is answered with the server error: if the numeric fields are
    read, it is the lowercasing of the label that raised; the store is not
    reached. *)
Theorem non_string_label_is_server_error
    fos env disaster_type (d : gmap string pyval) v w :
  (disaster_type = "banjir" /\ d !! "drainageCondition" = Some v) \/
  (disaster_type = "kebakaran" /\ d !! "materialType" = Some v) ->
  is_str v = false ->
  exists e,
    run (calculate_risk fos env disaster_type (Ret (PDict d))) w
    = (Ret (error_response e), w) /\
    ((forall key default, (key, default) ∈ numeric_fields disaster_type ->
        exists x, py_get (PDict d) key (PFloat default) ≫= py_float fos = Ret x) ->
     e = AttributeError (type_name v) "lower").
Proof.
  intros Hlabel Hstr.
  assert (Hlower : py_lower v = Raise (AttributeError (type_name v) "lower")).
  { destruct v; try reflexivity. discriminate. }
  assert (Hscore : exists e,
    score_request fos disaster_type (PDict d) = Raise e /\
    ((forall key default, (key, default) ∈ numeric_fields disaster_type ->
        exists x, py_get (PDict d) key (PFloat default) ≫= py_float fos = Ret x) ->
     e = AttributeError (type_name v) "lower")).
  { destruct Hlabel as [[-> Hv] | [-> Hv]];
      unfold score_request, numeric_fields; eval_eqb; cbv iota.
    - destruct (py_get (PDict d) "rainfall" (PFloat 50.0) ≫= py_float fos)
        as [rainfall|e1] eqn:E1.
      2:{ exists e1. split; [reflexivity|]. intros Hnum.
          destruct (Hnum "rainfall" 50.0) as [x Hx]; [set_solver|]. congruence. }
      destruct (py_get (PDict d) "altitude" (PFloat 50.0) ≫= py_float fos)
        as [altitude|e2] eqn:E2.
      2:{ exists e2. split; [reflexivity|]. intros Hnum.
          destruct (Hnum "altitude" 50.0) as [x Hx]; [set_solver|]. congruence. }
      exists (AttributeError (type_name v) "lower"). split; [|reflexivity].
      rewrite (py_get_present d _ v _ Hv). cbn [mbind outcome_bind].
      unfold calculate_flood_risk, drainage_score. rewrite Hlower. reflexivity.
    - destruct (py_get (PDict d) "area" (PFloat 100.0) ≫= py_float fos)
        as [area|e1] eqn:E1.
      2:{ exists e1. split; [reflexivity|]. intros Hnum.
          destruct (Hnum "area" 100.0) as [x Hx]; [set_solver|]. congruence. }
      rewrite (py_get_present d _ v _ Hv). cbn [mbind outcome_bind].
      destruct (py_get (PDict d) "windSpeed" (PFloat 10.0) ≫= py_float fos)
        as [wind_speed|e2] eqn:E2.
      2:{ exists e2. split; [reflexivity|]. intros Hnum.
          destruct (Hnum "windSpeed" 10.0) as [x Hx]; [set_solver|]. congruence. }
      exists (AttributeError (type_name v) "lower"). split; [|reflexivity].
      unfold calculate_fire_risk, material_score. rewrite Hlower. reflexivity. }
  destruct Hscore as (e & Hscore & He). exists e. split; [|exact He].
  pose proof (calculate_risk_run fos env disaster_type (PDict d) w) as Hrun.
  rewrite Hscore in Hrun. exact Hrun.
Qed.

(** ** Unknown scenario type *)

Lemma eqb_unknown (disaster_type : string) :
  ~ known_type disaster_type ->
  (disaster_type =? "gempa")%string = false /\
  (disaster_type =? "banjir")%string = false /\
  (disaster_type =? "kebakaran")%string = false.
Proof.
  unfold known_type. intros H.
  repeat split; apply String.eqb_neq; intros ->; tauto.
Qed.

(** C3.  For an unknown scenario type the calculate endpoint answers the
    client error and reaches neither the scoring nor the store.  The history
    endpoint does not: it connects to the store first, so it answers the
    server error when the store is unreachable, and otherwise answers the
    client error with a connection opened and left open. *)
Theorem unknown_type_history_reaches_store fos env disaster_type data w :
  ~ known_type disaster_type ->
  run (calculate_risk fos env disaster_type (Ret data)) w
  = (Ret invalid_type_response, w) /\
  run (get_history env disaster_type) w
  = (Ret (if connect_ok env then invalid_type_response
          else connection_failed_response),
     after_calls [Connect] w).
Proof.
  intros Hunknown. apply eqb_unknown in Hunknown as (E1 & E2 & E3). split.
  - pose proof (calculate_risk_run fos env disaster_type data w) as Hrun.
    unfold score_request in Hrun. rewrite E1, E2, E3 in Hrun. exact Hrun.
  - unfold get_history. rewrite E1, E2, E3.
    unfold_store. run_step. destruct (connect_ok env); reflexivity.
Qed.

(** * Further properties of the scoring engine *)

(** ** Rounding is monotone *)

Lemma round_half_even_mono (x y : Q) :
  x <= y -> (round_half_even x <= round_half_even y)%Z.
Proof.
  intros Hxy.
  pose proof (Qfloor_resp_le x y Hxy) as Hf.
  destruct (Z.eq_dec (Qfloor x) (Qfloor y)) as [Heq|Hne].
  - unfold round_half_even. rewrite <- Heq.
    destruct (Qcompare (x - inject_Z (Qfloor x)) (1 # 2)) eqn:Ex;
      destruct (Qcompare (y - inject_Z (Qfloor x)) (1 # 2)) eqn:Ey;
      try (destruct (Z.even (Qfloor x))); try lia.
    all: repeat match goal with
                | H : Qcompare _ _ = Eq |- _ => apply Qeq_alt in H
                | H : Qcompare _ _ = Lt |- _ => apply Qlt_alt in H
                | H : Qcompare _ _ = Gt |- _ => apply Qgt_alt in H
                end; lra.
  - assert (Hx : (round_half_even x <= Qfloor x + 1)%Z).
    { unfold round_half_even.
      destruct (Qcompare _ _); [destruct (Z.even _)|..]; lia. }
    assert (Hy : (Qfloor y <= round_half_even y)%Z).
    { unfold round_half_even.
      destruct (Qcompare _ _); [destruct (Z.even _)|..]; lia. }
    lia.
Qed.

Lemma py_round2_mono (x y : Q) : x <= y -> py_round x 2 <= py_round y 2.
Proof.
  intros H. unfold py_round.
  change (Z.to_pos (10 ^ Z.of_nat 2)) with 100%positive.
  assert (Hr : (round_half_even (x * inject_Z 100)
                <= round_half_even (y * inject_Z 100))%Z).
  { apply round_half_even_mono.
    apply Qmult_le_compat_r; [exact H | discriminate]. }
  unfold Qle; cbn. lia.
Qed.

Lemma py_min_mono (a b c : Q) : a <= b -> py_min a c <= py_min b c.
Proof.
  intros H. unfold py_min.
  destruct (Qltb c a) eqn:Ea; destruct (Qltb c b) eqn:Eb;
    try apply Qltb_lt in Ea; try apply Qltb_lt in Eb;
    try apply Qltb_ge in Ea; try apply Qltb_ge in Eb; lra.
Qed.

Lemma category_of_mono (p q : Q) :
  p <= q -> (category_rank (category_of p) <= category_rank (category_of q))%Z.
Proof.
  intros H. unfold category_of.
  destruct (Qltb p 40) eqn:E1; destruct (Qltb q 40) eqn:E2;
    destruct (Qltb p 70) eqn:E3; destruct (Qltb q 70) eqn:E4;
    try (cbn; lia).
  all: try apply Qltb_lt in E1; try apply Qltb_lt in E2;
    try apply Qltb_lt in E3; try apply Qltb_lt in E4;
    try apply Qltb_ge in E1; try apply Qltb_ge in E2;
    try apply Qltb_ge in E3; try apply Qltb_ge in E4; lra.
Qed.

(** ** The models in closed form *)

(** The normalized value, without the division. *)
Lemma normalize_value_times (value min_val max_val : Q) :
  min_val < max_val ->
  normalize_value value min_val max_val * (max_val - min_val) == value - min_val.
Proof.
  intros H. unfold normalize_value.
  destruct (Qeq_bool max_val min_val) eqn:E.
  { apply Qeq_bool_iff in E. lra. }
  field. lra.
Qed.

Lemma earthquake_result (magnitude depth distance : Q) :
  skor_risiko (calculate_earthquake_risk magnitude depth distance)
  = py_round (earthquake_percentage magnitude depth distance) 2 /\
  kategori_risiko (calculate_earthquake_risk magnitude depth distance)
  = category_of (earthquake_percentage magnitude depth distance).
Proof. split; reflexivity. Qed.

Lemma flood_result (rainfall altitude : Q) (label : string) :
  exists r, calculate_flood_risk rainfall altitude (PStr label) = Ret r /\
    skor_risiko r
    = py_round (flood_percentage rainfall altitude
                  (dict_get drainage_scores (lower label) 0.5)) 2 /\
    kategori_risiko r
    = category_of (flood_percentage rainfall altitude
                     (dict_get drainage_scores (lower label) 0.5)).
Proof. eexists. split; [reflexivity|]. split; reflexivity. Qed.

Lemma fire_result (area : Q) (label : string) (wind_speed : Q) :
  exists r, calculate_fire_risk area (PStr label) wind_speed = Ret r /\
    skor_risiko r
    = py_round (fire_percentage area
                  (dict_get material_scores (lower label) 0.5) wind_speed) 2 /\
    kategori_risiko r
    = category_of (fire_percentage area
                     (dict_get material_scores (lower label) 0.5) wind_speed).
Proof. eexists. split; [reflexivity|]. split; reflexivity. Qed.

Ltac normalized v a b :=
  let H := fresh "Hn" in
  pose proof (normalize_value_times v a b ltac:(reflexivity)) as H;
  generalize dependent (normalize_value v a b); intros.

Lemma earthquake_percentage_mono (m1 m2 d1 d2 s1 s2 : Q) :
  m1 <= m2 -> d2 <= d1 -> s2 <= s1 ->
  earthquake_percentage m1 d1 s1 <= earthquake_percentage m2 d2 s2.
Proof.
  intros Hm Hd Hs. unfold earthquake_percentage. apply py_min_mono.
  normalized m1 1.0 10.0. normalized m2 1.0 10.0.
  normalized d1 0 700. normalized d2 0 700.
  normalized s1 0 1000. normalized s2 0 1000. lra.
Qed.

Lemma flood_percentage_mono (r1 r2 a1 a2 x1 x2 : Q) :
  r1 <= r2 -> a2 <= a1 -> x1 <= x2 ->
  flood_percentage r1 a1 x1 <= flood_percentage r2 a2 x2.
Proof.
  intros Hr Ha Hx. unfold flood_percentage. apply py_min_mono.
  normalized r1 0 500. normalized r2 0 500.
  normalized a1 0 3000. normalized a2 0 3000. lra.
Qed.

Lemma fire_percentage_mono (a1 a2 x1 x2 w1 w2 : Q) :
  a1 <= a2 -> x1 <= x2 -> w1 <= w2 ->
  fire_percentage a1 x1 w1 <= fire_percentage a2 x2 w2.
Proof.
  intros Ha Hx Hw. unfold fire_percentage. apply py_min_mono.
  normalized a1 0 10000. normalized a2 0 10000.
  normalized w1 0 100. normalized w2 0 100. lra.
Qed.

(** ** More danger, no lower score *)

(** X1.  Moving any factor of a scenario towards danger (magnitude, rainfall,
    area, wind speed up; depth, distance, altitude down; a label of higher
    severity) never lowers the returned score and never lowers the
    category. *)
Theorem risk_is_monotone (i j : scenario_input) :
  no_less_risky i j ->
  exists r1 r2, risk_of i = Ret r1 /\ risk_of j = Ret r2 /\
    skor_risiko r1 <= skor_risiko r2 /\
    (category_rank (kategori_risiko r1) <= category_rank (kategori_risiko r2))%Z.
Proof.
  destruct i as [m1 d1 s1|r1 a1 l1|a1 l1 w1], j as [m2 d2 s2|r2 a2 l2|a2 l2 w2];
    cbn [no_less_risky risk_of]; try contradiction.
  - intros (Hm & Hd & Hs).
    do 2 eexists. split; [reflexivity|]. split; [reflexivity|].
    destruct (earthquake_result m1 d1 s1) as [-> ->].
    destruct (earthquake_result m2 d2 s2) as [-> ->].
    pose proof (earthquake_percentage_mono _ _ _ _ _ _ Hm Hd Hs) as H.
    split; [apply py_round2_mono | apply category_of_mono]; exact H.
  - intros (Hr & Ha & x1 & x2 & Hx1 & Hx2 & Hx).
    destruct (flood_result r1 a1 l1) as (res1 & E1 & S1 & C1).
    destruct (flood_result r2 a2 l2) as (res2 & E2 & S2 & C2).
    exists res1, res2. split; [exact E1|]. split; [exact E2|].
    rewrite S1, S2, C1, C2. clear E1 E2 S1 S2 C1 C2.
    unfold drainage_score in Hx1, Hx2. cbn in Hx1, Hx2.
    injection Hx1 as Hx1. injection Hx2 as Hx2. rewrite Hx1, Hx2.
    pose proof (flood_percentage_mono _ _ _ _ _ _ Hr Ha Hx) as H.
    split; [apply py_round2_mono | apply category_of_mono]; exact H.
  - intros (Ha & Hw & x1 & x2 & Hx1 & Hx2 & Hx).
    destruct (fire_result a1 l1 w1) as (res1 & E1 & S1 & C1).
    destruct (fire_result a2 l2 w2) as (res2 & E2 & S2 & C2).
    exists res1, res2. split; [exact E1|]. split; [exact E2|].
    rewrite S1, S2, C1, C2. clear E1 E2 S1 S2 C1 C2.
    unfold material_score in Hx1, Hx2. cbn in Hx1, Hx2.
    injection Hx1 as Hx1. injection Hx2 as Hx2. rewrite Hx1, Hx2.
    pose proof (fire_percentage_mono _ _ _ _ _ _ Ha Hx Hw) as H.
    split; [apply py_round2_mono | apply category_of_mono]; exact H.
Qed.

(** ** Range of the models that have a label *)

Lemma dict_get_drainage_cases (key : string) :
  dict_get drainage_scores key 0.5 = 0.2 \/
  dict_get drainage_scores key 0.5 = 0.5 \/
  dict_get drainage_scores key 0.5 = 0.8.
Proof.
  unfold dict_get. rewrite drainage_scores_lookup.
  repeat case_decide; cbn; auto.
Qed.

Lemma dict_get_material_cases (key : string) :
  dict_get material_scores key 0.5 = 0.2 \/
  dict_get material_scores key 0.5 = 0.5 \/
  dict_get material_scores key 0.5 = 0.8.
Proof.
  unfold dict_get. rewrite material_scores_lookup.
  repeat case_decide; cbn; auto.
Qed.

Lemma py_min_below (a b : Q) : a <= b -> py_min a b == a.
Proof.
  intros H. unfold py_min. destruct (Qltb b a) eqn:E; [|reflexivity].
  apply Qltb_lt in E. lra.
Qed.

(** X2.  With the numeric inputs in their expected ranges, the flood score
    and the fire score stay between 6 and 94 whatever the label: the label
    weighs 0.3 and its severity is never below 0.2 nor above 0.8, so these
    two models never reach 0 or the cap of 100 there. *)
Theorem labelled_scores_between_6_and_94 (i : scenario_input) :
  in_expected_range i ->
  match i with
  | Seismic _ _ _ => True
  | _ => exists r, risk_of i = Ret r /\ 6 <= skor_risiko r /\ skor_risiko r <= 94
  end.
Proof.
  destruct i as [m d s|r a l|a l w]; cbn [in_expected_range risk_of]; [trivial|..].
  - intros ((Hr0 & Hr1) & (Ha0 & Ha1)).
    destruct (flood_result r a l) as (res & E & S & _).
    exists res. split; [exact E|]. rewrite S. clear E S.
    assert (H : 6 <= flood_percentage r a (dict_get drainage_scores (lower l) 0.5)
                /\ flood_percentage r a (dict_get drainage_scores (lower l) 0.5) <= 94).
    { unfold flood_percentage.
      set (x := dict_get drainage_scores (lower l) 0.5).
      assert (Hx : 0.2 <= x /\ x <= 0.8).
      { subst x. destruct (dict_get_drainage_cases (lower l)) as [-> | [-> | ->]];
          split; discriminate. }
      clearbody x. normalized r 0 500. normalized a 0 3000.
      rewrite py_min_below by lra. lra. }
    destruct H. split; [apply (py_round2_ge 6) | apply (py_round2_le 94)]; assumption.
  - intros ((Ha0 & Ha1) & (Hw0 & Hw1)).
    destruct (fire_result a l w) as (res & E & S & _).
    exists res. split; [exact E|]. rewrite S. clear E S.
    assert (H : 6 <= fire_percentage a (dict_get material_scores (lower l) 0.5) w
                /\ fire_percentage a (dict_get material_scores (lower l) 0.5) w <= 94).
    { unfold fire_percentage.
      set (x := dict_get material_scores (lower l) 0.5).
      assert (Hx : 0.2 <= x /\ x <= 0.8).
      { subst x. destruct (dict_get_material_cases (lower l)) as [-> | [-> | ->]];
          split; discriminate. }
      clearbody x. normalized a 0 10000. normalized w 0 100.
      rewrite py_min_below by lra. lra. }
    destruct H. split; [apply (py_round2_ge 6) | apply (py_round2_le 94)]; assumption.
Qed.

(** X3.  The cap: a seismic input at or beyond the dangerous end of every
    range (magnitude at least 10, depth and distance at most 0) is scored
    exactly 100, "Tinggi", however far beyond it lies. *)
Theorem earthquake_score_is_capped (magnitude depth distance : Q) :
  10 <= magnitude -> depth <= 0 -> distance <= 0 ->
  skor_risiko (calculate_earthquake_risk magnitude depth distance) == 100 /\
  kategori_risiko (calculate_earthquake_risk magnitude depth distance) = "Tinggi".
Proof.
  intros Hm Hd Hs.
  destruct (earthquake_result magnitude depth distance) as [-> ->].
  assert (H : earthquake_percentage magnitude depth distance == 100).
  { unfold earthquake_percentage, py_min.
    normalized magnitude 1.0 10.0. normalized depth 0 700.
    normalized distance 0 1000.
    destruct (Qltb 100 _) eqn:E; [reflexivity|].
    apply Qltb_ge in E. lra. }
  split.
  - assert (Hle : earthquake_percentage magnitude depth distance <= 100) by lra.
    assert (Hge : 100 <= earthquake_percentage magnitude depth distance) by lra.
    apply Qle_antisym.
    + apply (py_round2_le 100). exact Hle.
    + apply (py_round2_ge 100). exact Hge.
  - unfold category_of.
    assert (H40 : Qltb (earthquake_percentage magnitude depth distance) 40 = false)
      by (apply Qltb_ge; lra).
    assert (H70 : Qltb (earthquake_percentage magnitude depth distance) 70 = false)
      by (apply Qltb_ge; lra).
    rewrite H40, H70. reflexivity.
Qed.

(** ** Labels *)

(** X4.  In the flood and fire models the label counts only through its
    lowercase form: labels that agree after lowercasing give the same score
    and category, and a label that is none of the known ones is scored as
    "sedang" is. *)
Theorem label_counts_through_lowercase (x y : Q) (label other : string) :
  (lower other = lower label ->
   exists r1 r2,
     calculate_flood_risk x y (PStr label) = Ret r1 /\
     calculate_flood_risk x y (PStr other) = Ret r2 /\
     skor_risiko r1 = skor_risiko r2 /\ kategori_risiko r1 = kategori_risiko r2) /\
  (lower other = lower label ->
   exists r1 r2,
     calculate_fire_risk x (PStr label) y = Ret r1 /\
     calculate_fire_risk x (PStr other) y = Ret r2 /\
     skor_risiko r1 = skor_risiko r2 /\ kategori_risiko r1 = kategori_risiko r2) /\
  (lower label <> "baik" -> lower label <> "buruk" ->
   exists r1 r2,
     calculate_flood_risk x y (PStr label) = Ret r1 /\
     calculate_flood_risk x y (PStr "sedang") = Ret r2 /\
     skor_risiko r1 = skor_risiko r2 /\ kategori_risiko r1 = kategori_risiko r2) /\
  (lower label <> "sulit" -> lower label <> "mudah" ->
   exists r1 r2,
     calculate_fire_risk x (PStr label) y = Ret r1 /\
     calculate_fire_risk x (PStr "sedang") y = Ret r2 /\
     skor_risiko r1 = skor_risiko r2 /\ kategori_risiko r1 = kategori_risiko r2).
Proof.
  repeat split.
  - intros Heq.
    destruct (flood_result x y label) as (r1 & E1 & S1 & C1).
    destruct (flood_result x y other) as (r2 & E2 & S2 & C2).
    exists r1, r2. rewrite S1, S2, C1, C2, Heq. auto.
  - intros Heq.
    destruct (fire_result x label y) as (r1 & E1 & S1 & C1).
    destruct (fire_result x other y) as (r2 & E2 & S2 & C2).
    exists r1, r2. rewrite S1, S2, C1, C2, Heq. auto.
  - intros H1 H2.
    destruct (flood_result x y label) as (r1 & E1 & S1 & C1).
    destruct (flood_result x y "sedang") as (r2 & E2 & S2 & C2).
    exists r1, r2. rewrite S1, S2, C1, C2.
    assert (Hd : dict_get drainage_scores (lower label) 0.5
                 = dict_get drainage_scores (lower "sedang") 0.5).
    { unfold dict_get. rewrite !drainage_scores_lookup.
      repeat case_decide; try congruence; try reflexivity; discriminate. }
    rewrite Hd. auto.
  - intros H1 H2.
    destruct (fire_result x label y) as (r1 & E1 & S1 & C1).
    destruct (fire_result x "sedang" y) as (r2 & E2 & S2 & C2).
    exists r1, r2. rewrite S1, S2, C1, C2.
    assert (Hd : dict_get material_scores (lower label) 0.5
                 = dict_get material_scores (lower "sedang") 0.5).
    { unfold dict_get. rewrite !material_scores_lookup.
      repeat case_decide; try congruence; try reflexivity; discriminate. }
    rewrite Hd. auto.
Qed.

(** ** The explanations *)

Lemma Qltb_ext (a b c d : Q) : (a < b <-> c < d) -> Qltb a b = Qltb c d.
Proof.
  intros H. destruct (Qltb a b) eqn:E1; destruct (Qltb c d) eqn:E2;
    try reflexivity.
  - apply Qltb_lt in E1. apply H in E1. apply Qltb_lt in E1. congruence.
  - apply Qltb_lt in E2. apply H in E2. apply Qltb_lt in E2. congruence.
Qed.

(** A threshold on the normalized value is a threshold on the raw value. *)
Lemma normalized_above (t value min_val max_val : Q) :
  min_val < max_val ->
  Qltb t (normalize_value value min_val max_val)
  = Qltb (min_val + t * (max_val - min_val)) value.
Proof.
  intros H. apply Qltb_ext.
  pose proof (normalize_value_times value min_val max_val H) as Hn.
  generalize dependent (normalize_value value min_val max_val). intros n Hn.
  split; intros; nra.
Qed.

Lemma normalized_below (t value min_val max_val : Q) :
  min_val < max_val ->
  Qltb (normalize_value value min_val max_val) t
  = Qltb value (min_val + t * (max_val - min_val)).
Proof.
  intros H. apply Qltb_ext.
  pose proof (normalize_value_times value min_val max_val H) as Hn.
  generalize dependent (normalize_value value min_val max_val). intros n Hn.
  split; intros; nra.
Qed.

Lemma Qltb_l (a a' b : Q) : a == a' -> Qltb a b = Qltb a' b.
Proof. intros H. apply Qltb_ext. rewrite H. reflexivity. Qed.

Lemma Qltb_r (a b b' : Q) : b == b' -> Qltb a b = Qltb a b'.
Proof. intros H. apply Qltb_ext. rewrite H. reflexivity. Qed.

Ltac tier_above t v a b c :=
  replace (Qltb t (normalize_value v a b)) with (Qltb c v)
    by (rewrite normalized_above by reflexivity;
        symmetry; apply Qltb_l; reflexivity).

Ltac tier_below t v a b c :=
  replace (Qltb (normalize_value v a b) t) with (Qltb v c)
    by (rewrite normalized_below by reflexivity;
        symmetry; apply Qltb_r; reflexivity).

Ltac by_tiers :=
  repeat match goal with |- context [Qltb ?a ?b] => destruct (Qltb a b) end;
  reflexivity.

(** X5.  The seismic explanation is the prefix, three phrases in the order
    magnitude, depth, distance joined by commas, and a full stop.  In the
    units of the inputs the tiers are: magnitude above 7.3 high, above 4.6
    medium, else low; depth below 210 shallow, below 490 medium, else deep;
    distance below 300 near, below 700 medium, else far.  Only the magnitude
    is printed. *)
Theorem earthquake_explanation (magnitude depth distance : Q) :
  penjelasan (calculate_earthquake_risk magnitude depth distance)
  = [Lit "Berdasarkan parameter: ";
     Lit "Magnitudo "; Fmt (PFloat magnitude); Lit (magnitude_phrase magnitude);
     Lit ", "; Lit (depth_phrase depth);
     Lit ", "; Lit (distance_phrase distance);
     Lit "."].
Proof.
  unfold calculate_earthquake_risk; cbn [penjelasan].
  tier_above 0.7 magnitude 1.0 10.0 7.3.
  tier_above 0.4 magnitude 1.0 10.0 4.6.
  tier_below 0.3 depth 0 700 210.
  tier_below 0.7 depth 0 700 490.
  tier_below 0.3 distance 0 1000 300.
  tier_below 0.7 distance 0 1000 700.
  unfold magnitude_phrase, depth_phrase, distance_phrase. by_tiers.
Qed.

(** X6.  The flood explanation: rainfall above 350 very high, above 200
    high, else normal; altitude above 2100 fairly high, above 1200 medium,
    else low; then the drainage label as the caller wrote it, not its
    lowercase form and whether or not it is a known label. *)
Theorem flood_explanation (rainfall altitude : Q) (label : string) :
  exists r, calculate_flood_risk rainfall altitude (PStr label) = Ret r /\
    penjelasan r
    = [Lit "Berdasarkan parameter: ";
       Lit "curah hujan "; Fmt (PFloat rainfall); Lit (rainfall_phrase rainfall);
       Lit ", "; Lit (altitude_phrase altitude);
       Lit ", "; Lit "kondisi drainase "; Fmt (PStr label);
       Lit "."].
Proof.
  eexists. split; [reflexivity|]. cbn [penjelasan].
  tier_above 0.7 rainfall 0 500 350.
  tier_above 0.4 rainfall 0 500 200.
  tier_above 0.7 altitude 0 3000 2100.
  tier_above 0.4 altitude 0 3000 1200.
  unfold rainfall_phrase, altitude_phrase. by_tiers.
Qed.

(** X7.  The fire explanation: area above 7000 very large, above 4000 fairly
    large, else limited; the material label as the caller wrote it; wind
    speed above 70 high, above 40 medium, else low. *)
Theorem fire_explanation (area : Q) (label : string) (wind_speed : Q) :
  exists r, calculate_fire_risk area (PStr label) wind_speed = Ret r /\
    penjelasan r
    = [Lit "Berdasarkan parameter: ";
       Lit "luas area "; Fmt (PFloat area); Lit (area_phrase area);
       Lit ", "; Lit "material "; Fmt (PStr label); Lit " terbakar";
       Lit ", "; Lit "kecepatan angin "; Fmt (PFloat wind_speed);
       Lit (wind_phrase wind_speed);
       Lit "."].
Proof.
  eexists. split; [reflexivity|]. cbn [penjelasan].
  tier_above 0.7 area 0 10000 7000.
  tier_above 0.4 area 0 10000 4000.
  tier_above 0.7 wind_speed 0 100 70.
  tier_above 0.4 wind_speed 0 100 40.
  unfold area_phrase, wind_phrase. by_tiers.
Qed.

(** * Further properties of the store and the handlers *)

(** ** Writing a row *)

Lemma py_getitem_present (d : gmap string pyval) (key : string) (v : pyval) :
  d !! key = Some v -> py_getitem (PDict d) key = Ret v.
Proof. intros H. unfold py_getitem. rewrite H. reflexivity. Qed.

Lemma add_rows_one_same (t : table) (r : row) (tables : table -> list row) :
  add_rows [(t, r)] tables t = tables t ++ [r].
Proof.
  unfold add_rows. cbn. rewrite decide_True by reflexivity. reflexivity.
Qed.

Lemma add_rows_one_other (t t' : table) (r : row) (tables : table -> list row) :
  t' <> t -> add_rows [(t, r)] tables t' = tables t'.
Proof.
  intros H. unfold add_rows. cbn. rewrite decide_False by congruence.
  cbn. apply app_nil_r.
Qed.

(** What [save_simulation_result] does when everything is there. *)
Lemma save_simulation_result_commits env disaster_type
    (d : gmap string pyval) result w k1 k2 k3 v1 v2 v3 :
  stored_fields disaster_type = [k1; k2; k3] ->
  d !! k1 = Some v1 -> d !! k2 = Some v2 -> d !! k3 = Some v3 ->
  connect_ok env = true -> execute_ok env = true -> commit_ok env = true ->
  run (save_simulation_result env disaster_type (PDict d) result) w
  = (Ret true,
     {| committed :=
          add_rows (pending w ++
                    [(table_of disaster_type,
                      {| row_inputs := (v1, v2, v3);
                         row_skor_risiko := skor_risiko result;
                         row_kategori_risiko := kategori_risiko result;
                         row_timestamp := now env |})]) (committed w);
        pending := [];
        calls := calls w ++ [Connect; Execute (table_of disaster_type); Commit; Close] |}).
Proof.
  intros Hf H1 H2 H3 Hc He Hm.
  unfold save_simulation_result, stored_fields, table_of in *.
  destruct (disaster_type =? "gempa")%string;
    [|destruct (disaster_type =? "banjir")%string];
    injection Hf as <- <- <-;
    unfold_store; run_step; rewrite Hc; run_step;
    rewrite (py_getitem_present _ _ _ H1), (py_getitem_present _ _ _ H2),
      (py_getitem_present _ _ _ H3); run_step;
    rewrite He; run_step; rewrite Hm; run_step;
    rewrite <- ?app_assoc; reflexivity.
Qed.

(** X8.  With the store up and the three fields of the scenario in the body,
    [save_simulation_result] returns [True] and appends one row to the table
    of the type: the three inputs as the body has them, the score, the
    category and the clock.  The other tables keep their rows; the calls are
    connect, execute, commit, close.  A type that is neither "gempa" nor
    "banjir" is written as "kebakaran" is. *)
Theorem save_appends_one_row env disaster_type
    (d : gmap string pyval) result w k1 k2 k3 v1 v2 v3 :
  stored_fields disaster_type = [k1; k2; k3] ->
  d !! k1 = Some v1 -> d !! k2 = Some v2 -> d !! k3 = Some v3 ->
  connect_ok env = true -> execute_ok env = true -> commit_ok env = true ->
  pending w = [] ->
  exists w',
    run (save_simulation_result env disaster_type (PDict d) result) w
    = (Ret true, w') /\
    committed w' (table_of disaster_type)
    = committed w (table_of disaster_type) ++
        [{| row_inputs := (v1, v2, v3);
            row_skor_risiko := skor_risiko result;
            row_kategori_risiko := kategori_risiko result;
            row_timestamp := now env |}] /\
    (forall t, t <> table_of disaster_type -> committed w' t = committed w t) /\
    pending w' = [] /\
    calls w' = calls w ++ [Connect; Execute (table_of disaster_type); Commit; Close].
Proof.
  intros Hf H1 H2 H3 Hc He Hm Hp.
  eexists. split.
  { apply (save_simulation_result_commits env disaster_type d result w
             k1 k2 k3 v1 v2 v3); assumption. }
  cbn [committed pending calls]. rewrite Hp. cbn [app].
  split; [apply add_rows_one_same|].
  split; [|split; reflexivity].
  intros t Ht. apply add_rows_one_other. exact Ht.
Qed.

Lemma Forall_three {A} (P : A -> Prop) (a b c : A) :
  Forall P [a; b; c] <-> P a /\ P b /\ P c.
Proof. rewrite !Forall_cons, Forall_nil. tauto. Qed.

(** X9.  For a body that is an object, [save_simulation_result] returns
    [True] exactly when the connection, the execute and the commit succeed
    and the body has the three fields of the scenario; in every other case it
    returns [False] and no table has changed. *)
Theorem save_returns_true_iff env disaster_type (d : gmap string pyval) result w :
  exists b w',
    run (save_simulation_result env disaster_type (PDict d) result) w = (Ret b, w') /\
    (b = true <->
       connect_ok env = true /\ execute_ok env = true /\ commit_ok env = true /\
       Forall (fun key => is_Some (d !! key)) (stored_fields disaster_type)) /\
    (b = false -> committed w' = committed w).
Proof.
  unfold stored_fields, save_simulation_result.
  destruct (disaster_type =? "gempa")%string;
    [|destruct (disaster_type =? "banjir")%string].
  all: setoid_rewrite Forall_three.
  all: unfold_store; run_step.
  all: destruct (connect_ok env); run_step;
    [|do 2 eexists; split; [reflexivity|]; split; [|reflexivity];
      split; [discriminate | intros (? & _); discriminate]].
  all: unfold py_getitem.
  all: repeat match goal with
              | |- context [?m !! ?k] => is_var m; destruct (m !! k)
              end; run_step.
  all: try (do 2 eexists; split; [reflexivity|]; split; [|reflexivity];
            split; [discriminate|];
            intros (_ & _ & _ & H1 & H2 & H3);
            first [destruct H1 as [? H1]; discriminate H1
                  |destruct H2 as [? H2]; discriminate H2
                  |destruct H3 as [? H3]; discriminate H3]).
  all: destruct (execute_ok env); run_step;
    [|do 2 eexists; split; [reflexivity|]; split; [|reflexivity];
      split; [discriminate | intros (_ & ? & _); discriminate]].
  all: destruct (commit_ok env); run_step;
    [|do 2 eexists; split; [reflexivity|]; split; [|reflexivity];
      split; [discriminate | intros (_ & _ & ? & _); discriminate]].
  all: do 2 eexists; split; [reflexivity|]; split; [|discriminate].
  all: split; [intros _|reflexivity].
  all: repeat split; eauto.
Qed.

(** ** Reading the history *)

#[global] Instance newer_transitive : Transitive newer.
Proof. intros a b c. unfold newer. lia. Qed.

#[global] Instance newer_total : Total newer.
Proof. intros a b. unfold newer. lia. Qed.

Lemma known_type_cases (disaster_type : string) :
  known_type disaster_type ->
  (disaster_type =? "gempa")%string = true \/
  ((disaster_type =? "gempa")%string = false /\
   (disaster_type =? "banjir")%string = true) \/
  ((disaster_type =? "gempa")%string = false /\
   (disaster_type =? "banjir")%string = false /\
   (disaster_type =? "kebakaran")%string = true).
Proof. intros [-> | [-> | ->]]; vm_compute; auto. Qed.

(** The store answering a known type. *)
Lemma get_history_run env disaster_type w :
  known_type disaster_type ->
  connect_ok env = true ->
  run (get_history env disaster_type) w
  = if execute_ok env then
      (Ret {| body := Success (HistoryData
                (take 10 (merge_sort newer (committed w (table_of disaster_type)))));
              status := 200 |},
       {| committed := committed w; pending := [];
          calls := calls w ++ [Connect; Execute (table_of disaster_type); Close] |})
    else
      (Ret (error_response DatabaseError),
       after_calls [Connect; Execute (table_of disaster_type)] w).
Proof.
  intros Hk Hc. unfold get_history, table_of, after_calls.
  destruct (known_type_cases _ Hk) as [E1 | [[E1 E2] | (E1 & E2 & E3)]];
    rewrite ?E1, ?E2, ?E3; unfold_store; run_step; rewrite Hc; run_step;
    destruct (execute_ok env); run_step; rewrite <- ?app_assoc; reflexivity.
Qed.

(** X10.  With the store up, the history of a known type is answered with
    status 200 and the ten newest rows of that type's table (all of them if
    there are fewer), newest first: no row left out is newer than a row
    returned.  No table changes, and the connection is closed. *)
Theorem history_returns_the_ten_newest env disaster_type w :
  known_type disaster_type ->
  connect_ok env = true -> execute_ok env = true ->
  exists history rest w',
    run (get_history env disaster_type) w
    = (Ret {| body := Success (HistoryData history); status := 200 |}, w') /\
    length history = Nat.min 10 (length (committed w (table_of disaster_type))) /\
    StronglySorted newer history /\
    history ++ rest ≡ₚ committed w (table_of disaster_type) /\
    (forall x y, x ∈ history -> y ∈ rest -> newer x y) /\
    committed w' = committed w /\
    calls w' = calls w ++ [Connect; Execute (table_of disaster_type); Close].
Proof.
  intros Hk Hc He.
  set (sorted := merge_sort newer (committed w (table_of disaster_type))).
  exists (take 10 sorted), (drop 10 sorted). eexists.
  split.
  { rewrite (get_history_run env disaster_type w Hk Hc), He. reflexivity. }
  cbn [committed calls].
  assert (Hs : StronglySorted newer (take 10 sorted ++ drop 10 sorted)).
  { rewrite take_drop. apply StronglySorted_merge_sort; apply _. }
  split.
  { rewrite length_take. subst sorted.
    rewrite (Permutation_length (merge_sort_Permutation newer _)). reflexivity. }
  split; [exact (StronglySorted_app_1_l _ _ _ Hs)|].
  split; [rewrite take_drop; apply merge_sort_Permutation|].
  split; [|split; reflexivity].
  intros x y Hx Hy. exact (StronglySorted_app_1_elem_of _ _ _ _ _ Hs Hx Hy).
Qed.

(** X11.  When the store cannot be reached the history endpoint answers the
    server error "Database connection failed" for every type.  When the
    connection succeeds and the query raises, it answers the server error
    with the exception, and the connection it opened is not closed. *)
Theorem history_store_failures env disaster_type w :
  (connect_ok env = false ->
   run (get_history env disaster_type) w
   = (Ret connection_failed_response, after_calls [Connect] w)) /\
  (known_type disaster_type ->
   connect_ok env = true -> execute_ok env = false ->
   run (get_history env disaster_type) w
   = (Ret (error_response DatabaseError),
      after_calls [Connect; Execute (table_of disaster_type)] w)).
Proof.
  split.
  - intros Hc. unfold get_history. unfold_store. run_step. rewrite Hc. reflexivity.
  - intros Hk Hc He.
    rewrite (get_history_run env disaster_type w Hk Hc), He. reflexivity.
Qed.

(** ** From a request to the history *)



(** ** The store only grows *)

Lemma save_simulation_result_effect env disaster_type data result w :
  exists b w',
    run (save_simulation_result env disaster_type data result) w = (Ret b, w') /\
    (pending w = [] -> pending w' = []) /\
    (committed w' = committed w \/
     exists r, committed w'
               = add_rows (pending w ++ [(table_of disaster_type, r)]) (committed w)).
Proof.
  unfold save_simulation_result, table_of.
  destruct (disaster_type =? "gempa")%string;
    [|destruct (disaster_type =? "banjir")%string].
  all: unfold_store; run_step.
  all: destruct (connect_ok env); run_step; [|eauto 7].
  all: repeat (match goal with
               | |- context [py_getitem ?d ?k] => destruct (py_getitem d k)
               end; run_step); eauto 7.
  all: destruct (execute_ok env); run_step; eauto 7.
  all: destruct (commit_ok env); run_step; eauto 8.
Qed.

(** X13.  The handlers never remove or rewrite a row.  Whatever the request
    and whatever the store does, after [calculate_risk] each table has its
    old rows, followed by at most one new row in the table of the requested
    type; [get_history] leaves every table as it was. *)
Theorem store_only_grows fos env disaster_type request_json w :
  pending w = [] ->
  let w' := (run (calculate_risk fos env disaster_type request_json) w).2 in
  (forall t,
     committed w' t = committed w t \/
     (t = table_of disaster_type /\ exists r, committed w' t = committed w t ++ [r])) /\
  pending w' = [] /\
  committed (run (get_history env disaster_type) w).2 = committed w /\
  pending (run (get_history env disaster_type) w).2 = [].
Proof.
  intros Hp w'. subst w'. split; [|split].
  - destruct request_json as [data|e]; [|left; reflexivity].
    pose proof (calculate_risk_run fos env disaster_type data w) as Hrun.
    destruct (score_request fos disaster_type data) as [[result|]|e];
      [|rewrite Hrun; left; reflexivity..].
    destruct Hrun as (b & w1 & Hsave & ->). cbn [snd].
    destruct (save_simulation_result_effect env disaster_type data result w)
      as (b' & w2 & Hsave' & _ & Heff).
    rewrite Hsave in Hsave'. injection Hsave' as <- <-.
    intros t. destruct Heff as [-> | (r & ->)]; [left; reflexivity|].
    rewrite Hp. cbn [app].
    destruct (decide (t = table_of disaster_type)) as [->|Hne].
    + right. split; [reflexivity|]. exists r. apply add_rows_one_same.
    + left. apply add_rows_one_other. exact Hne.
  - destruct request_json as [data|e]; [|exact Hp].
    pose proof (calculate_risk_run fos env disaster_type data w) as Hrun.
    destruct (score_request fos disaster_type data) as [[result|]|e];
      [|rewrite Hrun; exact Hp..].
    destruct Hrun as (b & w1 & Hsave & ->). cbn [snd].
    destruct (save_simulation_result_effect env disaster_type data result w)
      as (b' & w2 & Hsave' & Hpend & _).
    rewrite Hsave in Hsave'. injection Hsave' as <- <-. auto.
  - unfold get_history. unfold_store. run_step.
    destruct (connect_ok env); run_step; [|auto].
    destruct (disaster_type =? "gempa")%string;
      [|destruct (disaster_type =? "banjir")%string;
        [|destruct (disaster_type =? "kebakaran")%string]]; run_step;
      try (destruct (execute_ok env); run_step); auto.
Qed.

(** ** Bodies that cannot be scored *)

(** X14.  When the body cannot be parsed the calculate endpoint answers the
    server error with the parser's exception, for every type, known or not.
    When the body is JSON but not an object (a list, a string, a number,
    null) and the type is known, it answers the server error with the
    [AttributeError] of [get].  The store is not reached in either case. *)
Theorem body_not_an_object_is_server_error fos env disaster_type data e w :
  run (calculate_risk fos env disaster_type (Raise e)) w
  = (Ret (error_response e), w) /\
  (known_type disaster_type -> is_dict data = false ->
   run (calculate_risk fos env disaster_type (Ret data)) w
   = (Ret (error_response (AttributeError (type_name data) "get")), w)).
Proof.
  split; [reflexivity|].
  intros Hk Hd.
  pose proof (calculate_risk_run fos env disaster_type data w) as Hrun.
  assert (Hscore : score_request fos disaster_type data
                   = Raise (AttributeError (type_name data) "get")).
  { unfold score_request.
    destruct (known_type_cases _ Hk) as [E1 | [[E1 E2] | (E1 & E2 & E3)]];
      rewrite ?E1, ?E2, ?E3; destruct data; try discriminate Hd; reflexivity. }
  rewrite Hscore in Hrun. exact Hrun.
Qed.

Lemma read_float_raises fos (d : gmap string pyval) key default v e :
  d !! key = Some v -> py_float fos v = Raise e ->
  py_get (PDict d) key default ≫= py_float fos = Raise e.
Proof.
  intros Hv He. rewrite (py_get_present d key v default Hv). exact He.
Qed.

(** X15.  A numeric field that is present and that [float] rejects (null, a
    list, an object, a string that is not a number) makes the calculate
    endpoint answer the server error: no default is substituted for it, and
    the store is not reached. *)
Theorem uncoercible_number_is_server_error
    fos env disaster_type (d : gmap string pyval) key v e w :
  key ∈ float_fields disaster_type ->
  d !! key = Some v ->
  py_float fos v = Raise e ->
  exists e',
    run (calculate_risk fos env disaster_type (Ret (PDict d))) w
    = (Ret (error_response e'), w).
Proof.
  intros Hin Hv He.
  assert (Hscore : exists e', score_request fos disaster_type (PDict d) = Raise e').
  { unfold score_request, float_fields in *.
    destruct (disaster_type =? "gempa")%string;
      [|destruct (disaster_type =? "banjir")%string;
        [|destruct (disaster_type =? "kebakaran")%string]].
    all: repeat (apply elem_of_cons in Hin as [-> | Hin]);
      try (by apply elem_of_nil in Hin).
    all: rewrite (read_float_raises _ _ _ _ _ _ Hv He).
    all: repeat match goal with
                | |- context [py_get (PDict ?m) ?k ?def ≫= py_float ?f] =>
                    destruct (py_get (PDict m) k def ≫= py_float f)
                end.
    all: cbn [mbind outcome_bind py_get]; eauto. }
  destruct Hscore as (e' & Hscore). exists e'.
  pose proof (calculate_risk_run fos env disaster_type (PDict d) w) as Hrun.
  rewrite Hscore in Hrun. exact Hrun.
Qed.

(** ** The normalizer as a change of scale *)

(** X16.  On bounds that differ, [normalize_value] undoes the interpolation
    between them: the point a fraction [t] of the way from [min] to [max] is
    sent to [t].  It keeps the order of values when [min < max] and reverses
    it when [max < min]. *)
Theorem normalize_value_is_a_change_of_scale (t u min_val max_val : Q) :
  (~ min_val == max_val ->
   normalize_value (min_val + t * (max_val - min_val)) min_val max_val == t) /\
  (min_val < max_val -> t < u ->
   normalize_value t min_val max_val < normalize_value u min_val max_val) /\
  (max_val < min_val -> t < u ->
   normalize_value u min_val max_val < normalize_value t min_val max_val).
Proof.
  unfold normalize_value.
  destruct (Qeq_bool max_val min_val) eqn:E.
  { apply Qeq_bool_iff in E. repeat split; intros; lra. }
  assert (Hne : ~ max_val - min_val == 0).
  { intros H. apply Qeq_bool_neq in E. apply E. lra. }
  repeat split.
  - intros _. field. exact Hne.
  - intros Hlt Htu. unfold Qdiv.
    apply Qmult_lt_compat_r; [apply Qinv_lt_0_compat|]; lra.
  - intros Hlt Htu.
    assert (Hu : (u - min_val) / (max_val - min_val)
                 == (min_val - u) / (min_val - max_val)) by (field; lra).
    assert (Ht : (t - min_val) / (max_val - min_val)
                 == (min_val - t) / (min_val - max_val)) by (field; lra).
    rewrite Hu, Ht. unfold Qdiv. apply Qmult_lt_compat_r; [apply Qinv_lt_0_compat|]; lra.
Qed.

End StrLower.

(** * The theorems at sample inputs *)

(** C1, as the specification has it, fails twice.  An input outside its
    expected range gives a negative score: nothing clamps from below.  And
    the category is taken before rounding: 39.996 is "Rendah", and is
    returned as 40.00, in the seismic model at (8.19928, 700, 1000) and in
    the fire model at (6249, "sedang", 0). *)
Lemma score_in_range_and_bucketed_fails :
  ~ score_in_range_and_bucketed (calculate_earthquake_risk 1 7000 1000) /\
  ~ score_in_range_and_bucketed (calculate_earthquake_risk 8.19928 700 1000) /\
  (exists r, calculate_fire_risk no_unicode 6249 (PStr "sedang") 0 = Ret r /\
     ~ score_in_range_and_bucketed r).
Proof.
  split; [|split].
  - intros [[H _] _]. vm_compute in H. apply H. reflexivity.
  - intros (_ & _ & H & _). discriminate H.
    split; vm_compute; [discriminate | reflexivity].
  - eexists. split; [reflexivity|].
    intros (_ & _ & H & _). discriminate H.
    split; vm_compute; [discriminate | reflexivity].
Qed.

(** C7, as the specification has it: every request that lacks a field
    would be answered with a score.  A body that has the magnitude as null
    lacks the depth and the distance, and is answered with the server
    error. *)
Lemma missing_field_request_can_fail :
  ({[ "magnitude" := PNone ]} : gmap string pyval) !! "depth" = None /\
  run (calculate_risk no_unicode no_float_strings store_up "gempa"
         (Ret (PDict {[ "magnitude" := PNone ]}))) empty_world
  = (Ret (error_response (TypeError "float" "NoneType")), empty_world) /\
  ~ (exists result w',
       run (calculate_risk no_unicode no_float_strings store_up "gempa"
              (Ret (PDict {[ "magnitude" := PNone ]}))) empty_world
       = (Ret (ok_response result), w')).
Proof.
  split; [reflexivity|]. split; [reflexivity|].
  intros (result & w' & H). vm_compute in H. discriminate H.
Qed.

Lemma normalize_value_contract_witness :
  normalize_value 7 3 3 = 0.5 /\
  normalize_value 7.5 1 10 = (7.5 - 1) / (10 - 1) /\
  (normalize_value 1 1 10 == 0 /\ normalize_value 10 1 10 == 1) /\
  normalize_value (-2) 0 700 < 0 /\
  1 < normalize_value 15 1 10.
Proof.
  split; [|split; [|split; [|split]]].
  - destruct (normalize_value_contract 7 3 3) as (H & _).
    apply H. reflexivity.
  - destruct (normalize_value_contract 7.5 1 10) as (_ & H & _).
    apply H. discriminate.
  - destruct (normalize_value_contract 0 1 10) as (_ & _ & H & _).
    apply H. discriminate.
  - destruct (normalize_value_contract (-2) 0 700) as (_ & _ & _ & H & _).
    apply H; reflexivity.
  - destruct (normalize_value_contract 15 1 10) as (_ & _ & _ & _ & H).
    apply H; reflexivity.
Defined.

Lemma categorical_scorer_contract_witness :
  drainage_score no_unicode (PStr "Buruk") = Ret 0.8 /\
  drainage_score no_unicode (PStr "rusak") = Ret 0.5 /\
  material_score no_unicode (PStr "MUDAH") = Ret 0.8 /\
  material_score no_unicode (PStr "kayu") = Ret 0.5 /\
  drainage_score no_unicode (PStr "BAIK") = drainage_score no_unicode (PStr "baik") /\
  drainage_score kelvin_lower (PStr "BURUK") = Ret 0.8.
Proof.
  split; [|split; [|split; [|split; [|split]]]].
  - destruct (categorical_scorer_contract no_unicode "Buruk") as (_ & _ & H & _).
    apply H. reflexivity.
  - destruct (categorical_scorer_contract no_unicode "rusak") as (_ & _ & _ & H & _).
    apply H; vm_compute; discriminate.
  - destruct (categorical_scorer_contract no_unicode "MUDAH") as (_ & _ & _ & _ & _ & _ & H & _).
    apply H. reflexivity.
  - destruct (categorical_scorer_contract no_unicode "kayu")
      as (_ & _ & _ & _ & _ & _ & _ & H & _).
    apply H; vm_compute; discriminate.
  - destruct (categorical_scorer_contract no_unicode "baik")
      as (_ & _ & _ & _ & _ & _ & _ & _ & H & _).
    apply (H "BAIK"). reflexivity.
  - destruct (categorical_scorer_contract kelvin_lower "BURUK") as (_ & _ & H & _).
    apply H. reflexivity.
Defined.

Lemma score_bounds_and_category_witness :
  exists r, risk_of no_unicode (Flood 10 2000 "baik") = Ret r /\
    0 <= skor_risiko r /\ skor_risiko r <= 100 /\ kategori_risiko r = "Rendah".
Proof.
  destruct (score_bounds_and_category no_unicode (Flood 10 2000 "baik"))
    as (r & Hr & _ & Hle & H0 & Hlow & _).
  exists r. split; [exact Hr|]. split; [|split; [exact Hle|]].
  - apply H0. vm_compute. intuition discriminate.
  - apply Hlow. injection Hr as <-. reflexivity.
Defined.

Lemma persistence_failure_not_propagated_witness :
  exists w',
    run (calculate_risk no_unicode no_float_strings store_down "gempa"
           (Ret (PDict {[ "magnitude" := PFloat 7.5; "depth" := PInt 50;
                          "distance" := PInt 20 ]}))) empty_world
    = (Ret (ok_response (calculate_earthquake_risk 7.5 50 20)), w') /\
    (connect_ok store_down && execute_ok store_down && commit_ok store_down = false ->
     committed w' = committed empty_world).
Proof.
  apply (persistence_failure_not_propagated no_unicode no_float_strings store_down "gempa").
  vm_compute. reflexivity.
Defined.

Lemma missing_field_scored_but_not_persisted_witness :
  run (calculate_risk no_unicode no_float_strings store_up "gempa"
         (Ret (PDict {[ "magnitude" := PFloat 7.5; "depth" := PInt 50 ]})))
      empty_world
  = (Ret (ok_response (calculate_earthquake_risk 7.5 50 50.0)),
     {| committed := committed empty_world; pending := [];
        calls := [Connect; Close] |}).
Proof.
  destruct (missing_field_scored_but_not_persisted no_unicode no_float_strings store_up
              "gempa" {[ "magnitude" := PFloat 7.5; "depth" := PInt 50 ]}
              "distance" empty_world) as (_ & H & _).
  - left. reflexivity.
  - vm_compute. do 2 right. left.
  - reflexivity.
  - apply (H (calculate_earthquake_risk 7.5 50 50.0)). reflexivity.
Defined.

Lemma non_string_label_is_server_error_witness :
  exists e,
    run (calculate_risk no_unicode no_float_strings store_up "banjir"
           (Ret (PDict {[ "rainfall" := PFloat 10; "drainageCondition" := PInt 3 ]})))
        empty_world
    = (Ret (error_response e), empty_world) /\
    ((forall key default, (key, default) ∈ numeric_fields "banjir" ->
        exists x,
          py_get (PDict {[ "rainfall" := PFloat 10; "drainageCondition" := PInt 3 ]})
            key (PFloat default) ≫= py_float no_float_strings = Ret x) ->
     e = AttributeError (type_name (PInt 3)) "lower").
Proof.
  apply (non_string_label_is_server_error no_unicode no_float_strings store_up "banjir"
           {[ "rainfall" := PFloat 10; "drainageCondition" := PInt 3 ]} (PInt 3)).
  - left. split; reflexivity.
  - reflexivity.
Defined.

Lemma unknown_type_history_reaches_store_witness :
  run (get_history store_down "tsunami") empty_world
  = (Ret connection_failed_response, after_calls [Connect] empty_world) /\
  run (get_history store_up "tsunami") empty_world
  = (Ret invalid_type_response, after_calls [Connect] empty_world).
Proof.
  split.
  - apply (unknown_type_history_reaches_store no_unicode no_float_strings store_down
             "tsunami" PNone empty_world).
    intros [H | [H | H]]; discriminate H.
  - apply (unknown_type_history_reaches_store no_unicode no_float_strings store_up
             "tsunami" PNone empty_world).
    intros [H | [H | H]]; discriminate H.
Defined.

Lemma risk_is_monotone_witness :
  exists r1 r2,
    risk_of no_unicode (Flood 10 2000 "baik") = Ret r1 /\
    risk_of no_unicode (Flood 120 800 "BURUK") = Ret r2 /\
    skor_risiko r1 <= skor_risiko r2 /\
    (category_rank (kategori_risiko r1) <= category_rank (kategori_risiko r2))%Z.
Proof.
  apply (risk_is_monotone no_unicode (Flood 10 2000 "baik") (Flood 120 800 "BURUK")).
  cbn. split; [discriminate|]. split; [discriminate|].
  exists 0.2, 0.8. split; [reflexivity|]. split; [reflexivity|discriminate].
Defined.

Lemma labelled_scores_between_6_and_94_witness :
  exists r, risk_of no_unicode (Fire 10000 "MUDAH" 100) = Ret r /\
    6 <= skor_risiko r /\ skor_risiko r <= 94.
Proof.
  apply (labelled_scores_between_6_and_94 no_unicode (Fire 10000 "MUDAH" 100)).
  cbn. repeat split; discriminate.
Defined.

Lemma earthquake_score_is_capped_witness :
  skor_risiko (calculate_earthquake_risk 15 (-3) 0) == 100 /\
  kategori_risiko (calculate_earthquake_risk 15 (-3) 0) = "Tinggi".
Proof. apply (earthquake_score_is_capped 15 (-3) 0); discriminate. Defined.

Lemma label_counts_through_lowercase_witness :
  (exists r1 r2,
     calculate_flood_risk no_unicode 10 2000 (PStr "baik") = Ret r1 /\
     calculate_flood_risk no_unicode 10 2000 (PStr "BaIk") = Ret r2 /\
     skor_risiko r1 = skor_risiko r2 /\ kategori_risiko r1 = kategori_risiko r2) /\
  (exists r1 r2,
     calculate_fire_risk no_unicode 5000 (PStr "kertas") 80 = Ret r1 /\
     calculate_fire_risk no_unicode 5000 (PStr "sedang") 80 = Ret r2 /\
     skor_risiko r1 = skor_risiko r2 /\ kategori_risiko r1 = kategori_risiko r2) /\
  (exists r1 r2,
     calculate_flood_risk kelvin_lower 10 2000 (PStr "buruk") = Ret r1 /\
     calculate_flood_risk kelvin_lower 10 2000 (PStr "BURUK") = Ret r2 /\
     skor_risiko r1 = skor_risiko r2 /\ kategori_risiko r1 = kategori_risiko r2).
Proof.
  split; [|split].
  - destruct (label_counts_through_lowercase no_unicode 10 2000 "baik" "BaIk") as (H & _).
    apply H. reflexivity.
  - destruct (label_counts_through_lowercase no_unicode 5000 80 "kertas" "")
      as (_ & _ & _ & H).
    apply H; vm_compute; discriminate.
  - destruct (label_counts_through_lowercase kelvin_lower 10 2000 "buruk" "BURUK")
      as (H & _).
    apply H. reflexivity.
Defined.

Lemma save_appends_one_row_witness :
  exists w',
    run (save_simulation_result store_up "tsunami"
           (PDict {[ "area" := PInt 120; "materialType" := PStr "Mudah";
                     "windSpeed" := PFloat 12.5 ]})
           {| skor_risiko := 28.23; kategori_risiko := "Rendah"; penjelasan := [] |})
        empty_world
    = (Ret true, w') /\
    committed w' simulasi_kebakaran
    = [{| row_inputs := (PInt 120, PStr "Mudah", PFloat 12.5);
          row_skor_risiko := 28.23;
          row_kategori_risiko := "Rendah";
          row_timestamp := 0 |}].
Proof.
  destruct (save_appends_one_row store_up "tsunami"
              {[ "area" := PInt 120; "materialType" := PStr "Mudah";
                 "windSpeed" := PFloat 12.5 ]}
              {| skor_risiko := 28.23; kategori_risiko := "Rendah"; penjelasan := [] |}
              empty_world "area" "materialType" "windSpeed"
              (PInt 120) (PStr "Mudah") (PFloat 12.5))
    as (w' & Hrun & Hrow & _); try reflexivity.
  exists w'. split; [exact Hrun | exact Hrow].
Defined.

Lemma history_returns_the_ten_newest_witness :
  exists history rest w',
    (run (get_history store_up "banjir") twelve_rows
     = (Ret {| body := Success (HistoryData history); status := 200 |}, w') /\
     length history = Nat.min 10 (length (committed twelve_rows (table_of "banjir"))) /\
     StronglySorted newer history /\
     history ++ rest ≡ₚ committed twelve_rows (table_of "banjir") /\
     (forall x y, x ∈ history -> y ∈ rest -> newer x y) /\
     committed w' = committed twelve_rows /\
     calls w' = calls twelve_rows ++ [Connect; Execute (table_of "banjir"); Close]) /\
    map row_timestamp history = [12; 11; 10; 9; 8; 7; 6; 5; 4; 3]%Z.
Proof.
  destruct (history_returns_the_ten_newest store_up "banjir" twelve_rows)
    as (history & rest & w' & Hrun & H);
    [right; left; reflexivity | reflexivity | reflexivity |].
  exists history, rest, w'. split; [exact (conj Hrun H)|].
  vm_compute in Hrun. injection Hrun as Hhistory _. rewrite <- Hhistory. reflexivity.
Defined.

Lemma history_store_failures_witness :
  run (get_history store_down "gempa") empty_world
  = (Ret connection_failed_response, after_calls [Connect] empty_world) /\
  run (get_history {| connect_ok := true; execute_ok := false;
                      commit_ok := true; now := 0 |} "gempa") empty_world
  = (Ret (error_response DatabaseError),
     after_calls [Connect; Execute (table_of "gempa")] empty_world).
Proof.
  split.
  - destruct (history_store_failures store_down "gempa" empty_world) as [H _].
    apply H. reflexivity.
  - destruct (history_store_failures
                {| connect_ok := true; execute_ok := false;
                   commit_ok := true; now := 0 |} "gempa" empty_world) as [_ H].
    apply H; [left|..]; reflexivity.
Defined.


Lemma store_only_grows_witness :
  let w' := (run (calculate_risk no_unicode no_float_strings store_up "gempa"
                    (Ret (PDict {[ "magnitude" := PFloat 7.5; "depth" := PInt 50;
                                   "distance" := PInt 20 ]}))) empty_world).2 in
  (forall t,
     committed w' t = committed empty_world t \/
     (t = table_of "gempa" /\
      exists r, committed w' t = committed empty_world t ++ [r])) /\
  pending w' = [] /\
  committed (run (get_history store_up "gempa") empty_world).2
  = committed empty_world /\
  pending (run (get_history store_up "gempa") empty_world).2 = [].
Proof.
  apply (store_only_grows no_unicode no_float_strings store_up "gempa"
           (Ret (PDict {[ "magnitude" := PFloat 7.5; "depth" := PInt 50;
                          "distance" := PInt 20 ]})) empty_world).
  reflexivity.
Defined.

Lemma body_not_an_object_is_server_error_witness :
  run (calculate_risk no_unicode no_float_strings store_up "kebakaran"
         (Ret (PList [PFloat 100; PStr "mudah"; PFloat 10]))) empty_world
  = (Ret (error_response (AttributeError "list" "get")), empty_world).
Proof.
  destruct (body_not_an_object_is_server_error no_unicode no_float_strings store_up
              "kebakaran" (PList [PFloat 100; PStr "mudah"; PFloat 10])
              BadRequest empty_world) as [_ H].
  apply H; [do 2 right|]; reflexivity.
Defined.

Lemma uncoercible_number_is_server_error_witness :
  (exists e',
     run (calculate_risk no_unicode no_float_strings store_up "kebakaran"
            (Ret (PDict {[ "area" := PFloat 100; "windSpeed" := PNone ]})))
         empty_world
     = (Ret (error_response e'), empty_world)) /\
  (exists e',
     run (calculate_risk no_unicode no_float_strings store_up "gempa"
            (Ret (PDict {[ "magnitude" := PInt (10 ^ 400) ]})))
         empty_world
     = (Ret (error_response e'), empty_world)).
Proof.
  split.
  - apply (uncoercible_number_is_server_error no_unicode no_float_strings store_up
             "kebakaran" {[ "area" := PFloat 100; "windSpeed" := PNone ]}
             "windSpeed" PNone (TypeError "float" "NoneType")).
    + vm_compute. right. left.
    + reflexivity.
    + reflexivity.
  - apply (uncoercible_number_is_server_error no_unicode no_float_strings store_up
             "gempa" {[ "magnitude" := PInt (10 ^ 400) ]}
             "magnitude" (PInt (10 ^ 400)) OverflowError).
    + vm_compute. left.
    + reflexivity.
    + vm_compute. reflexivity.
Defined.

Lemma normalize_value_is_a_change_of_scale_witness :
  normalize_value (1 + 0.25 * (10 - 1)) 1 10 == 0.25 /\
  normalize_value 50 0 700 < normalize_value 300 0 700.
Proof.
  split.
  - destruct (normalize_value_is_a_change_of_scale 0.25 0 1 10) as (H & _).
    apply H. discriminate.
  - destruct (normalize_value_is_a_change_of_scale 50 300 0 700) as (_ & H & _).
    apply H; reflexivity.
Defined.

